(** * Ethereum & SUI Wallet API: the request handlers of [index.js] and [main.js]

    The service is an Express application: every route is a handler that
    reads [req.query], calls into the cryptography libraries ([ethers],
    [@mysten/sui], [bip39]) and answers with [res.status(n).json(body)].

    The handlers are embedded as functions in a small monad that threads
    the libraries' entropy, carries JavaScript exceptions and records the
    library calls and the [console.error] lines of a run.  The libraries
    themselves are not part of the repository: they are a [Provider], a
    record of operations the handlers are parameterised by.

    What the embedding takes for granted: an [await] is the call it waits
    for; reading a property of a library object ([wallet.address]) does not
    throw; sending the answer does not throw.  [index.js] is in the
    repository twice, the second time with [/sign] and [/verify] only, and
    these two are the same text in both. *)

From Stdlib Require Import String Ascii List NArith Arith Bool Lia.
From Stdlib.Strings Require Import Byte.
Import ListNotations.

Local Open Scope string_scope.
Local Open Scope list_scope.
Set Warnings "-register-all".

(* ------------------------------------------------------------------ *)
(** ** JavaScript values seen by the handlers *)
(* ------------------------------------------------------------------ *)

Module Js.

(** A JavaScript string is a sequence of code units; an [ascii] stands for
    one code unit (the model covers code units below 256, which is where
    every key, prefix and hex digit lives). *)

(** The values that [req.query] holds and [res.json] sends: [qs] parses a
    query string into strings, arrays and nested objects; a property that
    is not there reads as [undefined]. *)
Inductive value : Type :=
| VUndefined
| VBool (b : bool)
| VStr (s : string)
| VArr (items : list value)
| VObj (fields : list (string * value)).

(** [o.k], the property read. *)
Fixpoint prop (o : list (string * value)) (k : string) : value :=
  match o with
  | [] => VUndefined
  | (k', v) :: o' => if String.eqb k' k then v else prop o' k
  end.

Definition field (v : value) (k : string) : value :=
  match v with
  | VObj o => prop o k
  | _ => VUndefined
  end.

(** [!!v]: [undefined], [false] and the empty string are falsy; arrays and
    objects are truthy. *)
Definition truthy (v : value) : bool :=
  match v with
  | VUndefined => false
  | VBool b => b
  | VStr s => negb (String.eqb s "")
  | VArr _ => true
  | VObj _ => true
  end.

(** An exception value: [error.name] and [error.message]. *)
Record exn : Type := Error { ename : string; emessage : string }.

Inductive result (A : Type) : Type :=
| Ok (a : A)
| Throw (e : exn).
Arguments Ok {A} a.
Arguments Throw {A} e.

Definition thrown {A} (r : result A) : option exn :=
  match r with Ok _ => None | Throw x => Some x end.

(** *** String methods *)

Fixpoint drop (n : nat) (s : string) : string :=
  match n, s with
  | O, _ => s
  | S n', String _ s' => drop n' s'
  | S _, EmptyString => EmptyString
  end.

(** [s.startsWith(p)] *)
Definition startsWith (s p : string) : bool := String.prefix p s.

(** [s.replace(pat, rep)] with a string pattern: the first occurrence of
    [pat], wherever it is, is replaced; [rep] holds no [$] pattern here. *)
Fixpoint replace (s pat rep : string) : string :=
  if String.prefix pat s then rep ++ drop (String.length pat) s
  else match s with
       | EmptyString => EmptyString
       | String c s' => String c (replace s' pat rep)
       end.

(** A method of [String.prototype] called on a query value: arrays and
    objects have neither [replace] nor [startsWith], so the call is a
    [TypeError]. *)
Definition not_a_function (method : string) : exn :=
  Error "TypeError" ("privateKey." ++ method ++ " is not a function").

(** The receiver of a [String.prototype] method call: the string itself,
    or the [TypeError] of calling a property that is not a function. *)
Definition receiver (v : value) (method : string) : result string :=
  match v with
  | VStr s => Ok s
  | _ => Throw (not_a_function method)
  end.

(** *** Buffers *)

Definition byte_of_N (n : N) : byte := byte_of_ascii (ascii_of_N n).

(** Value of a hexadecimal digit, upper or lower case. *)
Definition unhex (c : ascii) : option N :=
  let n := N_of_ascii c in
  if (48 <=? n)%N && (n <=? 57)%N then Some (n - 48)%N
  else if (97 <=? n)%N && (n <=? 102)%N then Some (n - 87)%N
  else if (65 <=? n)%N && (n <=? 70)%N then Some (n - 55)%N
  else None.

(** [Buffer.from(s, 'hex')]: pairs of digits are decoded from the left;
    decoding stops at the first pair that is not two hex digits, and an odd
    last character is dropped.  This is the decoder on strings of code
    units below 256; what it makes of wider code units is not described
    here. *)
Fixpoint Buffer_from_hex (s : string) : list byte :=
  match s with
  | String a (String b s') =>
      match unhex a, unhex b with
      | Some hi, Some lo => byte_of_N (16 * hi + lo) :: Buffer_from_hex s'
      | _, _ => []
      end
  | _ => []
  end.

Definition hexdigit (n : N) : ascii :=
  if (n <? 10)%N then ascii_of_N (48 + n) else ascii_of_N (87 + n).

Definition hex_of_byte (b : byte) : string :=
  let n := Byte.to_N b in
  String (hexdigit (n / 16)) (String (hexdigit (n mod 16)) EmptyString).

(** [buf.toString('hex')] *)
Fixpoint toString_hex (buf : list byte) : string :=
  match buf with
  | [] => EmptyString
  | b :: buf' => hex_of_byte b ++ toString_hex buf'
  end.

(** UTF-8 of one code unit below 256. *)
Definition utf8_unit (c : ascii) : list byte :=
  let n := N_of_ascii c in
  if (n <? 128)%N then [byte_of_N n]
  else [byte_of_N (192 + n / 64); byte_of_N (128 + n mod 64)].

Fixpoint utf8 (s : string) : list byte :=
  match s with
  | EmptyString => []
  | String c s' => utf8_unit c ++ utf8 s'
  end.

(** What [slice] and [Buffer.from] are applied to in [/generate-sui]: both
    exist on a [Uint8Array] and on a string. *)
Inductive sliceable : Type :=
| Bytes (b : list byte)
| Text (s : string).

(** [x.slice(start, stop)] for indices that are not negative. *)
Definition slice (x : sliceable) (start stop : nat) : sliceable :=
  match x with
  | Bytes b => Bytes (skipn start (firstn stop b))
  | Text s => Text (String.substring start (stop - start) s)
  end.

(** [Buffer.from(x)]: a copy of a byte array, the UTF-8 bytes of a string. *)
Definition Buffer_from (x : sliceable) : list byte :=
  match x with
  | Bytes b => b
  | Text s => utf8 s
  end.

Definition lower_hex (c : ascii) : bool :=
  let n := N_of_ascii c in
  ((48 <=? n)%N && (n <=? 57)%N) || ((97 <=? n)%N && (n <=? 102)%N).

Fixpoint all_chars (p : ascii -> bool) (s : string) : bool :=
  match s with
  | EmptyString => true
  | String c s' => p c && all_chars p s'
  end.

Definition is_hex (c : ascii) : bool :=
  match unhex c with Some _ => true | None => false end.

(** A code unit that UTF-8 writes as one byte. *)
Definition seven_bit (c : ascii) : bool := (N_of_ascii c <? 128)%N.

End Js.
Export Js.

(* ------------------------------------------------------------------ *)
(** ** The cryptography libraries *)
(* ------------------------------------------------------------------ *)

(** The operations of [ethers], [bip39] and [@mysten/sui] that the handlers
    call.  Constructors and methods may throw; the generators draw from the
    library's entropy.  [wallet.publicKey] of an [ethers.Wallet] is read as
    a property of an object whose class is not in the repository: it is
    whatever value the object has there, [undefined] if it has none (and
    [res.json] leaves an [undefined] property out of what it sends). *)
Record Provider : Type := {
  Entropy : Type;
  (* ethers *)
  Wallet : Type;
  new_Wallet : value -> result Wallet;
  wallet_address : Wallet -> string;
  wallet_publicKey : Wallet -> value;
  signMessage : Wallet -> value -> result string;
  verifyMessage : value -> value -> result string;
  computePublicKey : string -> bool -> result string;
  Mnemonic : Type;
  Mnemonic_fromPhrase : string -> result Mnemonic;
  HDNodeWallet : Type;
  HDNodeWallet_fromMnemonic : Mnemonic -> result HDNodeWallet;
  derivePath : HDNodeWallet -> string -> result HDNodeWallet;
  Wallet_createRandom : Entropy -> result HDNodeWallet * Entropy;
  hd_address : HDNodeWallet -> string;
  hd_privateKey : HDNodeWallet -> string;
  hd_publicKey : HDNodeWallet -> string;
  (* bip39 *)
  generateMnemonic : Entropy -> result string * Entropy;
  (* @mysten/sui *)
  Ed25519Keypair : Type;
  PublicKey : Type;
  new_Ed25519Keypair : Entropy -> result Ed25519Keypair * Entropy;
  Ed25519Keypair_fromSecretKey : list byte -> result Ed25519Keypair;
  getPublicKey : Ed25519Keypair -> result PublicKey;
  getSecretKey : Ed25519Keypair -> result sliceable;
  toSuiAddress : PublicKey -> result string;
  toBase64 : PublicKey -> result string
}.

(** A library call, with the arguments that come from the request. *)
Inductive call : Type :=
| CNewWallet (key : value)
| CSignMessage (message : value)
| CVerifyMessage (message signature : value)
| CComputePublicKey (key : string) (compressed : bool)
| CGenerateMnemonic
| CMnemonicFromPhrase (phrase : string)
| CFromMnemonic
| CDerivePath (path : string)
| CCreateRandom
| CNewKeypair
| CFromSecretKey (secretKey : list byte)
| CGetPublicKey
| CGetSecretKey
| CToSuiAddress
| CToBase64.

(** What a run leaves behind: the library calls, each with the exception it
    threw if it did not return, and the lines written with [console.error]. *)
Inductive event : Type :=
| Called (c : call) (thrown : option exn)
| Logged (prefix : string) (error : exn).

Definition is_call (ev : event) : bool :=
  match ev with Called _ _ => true | Logged _ _ => false end.

Definition failed_call (ev : event) : bool :=
  match ev with Called _ (Some _) => true | _ => false end.

Definition calls (tr : list event) : list event := filter is_call tr.

(* ------------------------------------------------------------------ *)
(** ** Handler computations *)
(* ------------------------------------------------------------------ *)

Module Effects.
Section WithProvider.
Context {P : Provider}.

Record Run (A : Type) : Type := mkRun {
  outcome : result A;
  entropy_after : Entropy P;
  events : list event
}.
Arguments mkRun {A}.
Arguments outcome {A}.
Arguments entropy_after {A}.
Arguments events {A}.

Definition M (A : Type) : Type := Entropy P -> Run A.

Definition ret {A} (a : A) : M A := fun e => mkRun (Ok a) e [].

Definition throw {A} (x : exn) : M A := fun e => mkRun (Throw x) e [].

Definition bind {A B} (m : M A) (k : A -> M B) : M B :=
  fun e =>
    match m e with
    | mkRun (Ok a) e1 tr1 =>
        match k a e1 with
        | mkRun o e2 tr2 => mkRun o e2 (tr1 ++ tr2)
        end
    | mkRun (Throw x) e1 tr1 => mkRun (Throw x) e1 tr1
    end.

(** [try { m } catch (error) { h error }] *)
Definition try_catch {A} (m : M A) (h : exn -> M A) : M A :=
  fun e =>
    match m e with
    | mkRun (Ok a) e1 tr1 => mkRun (Ok a) e1 tr1
    | mkRun (Throw x) e1 tr1 =>
        match h x e1 with
        | mkRun o e2 tr2 => mkRun o e2 (tr1 ++ tr2)
        end
    end.

(** A library call that does not touch the entropy. *)
Definition lib {A} (c : call) (r : result A) : M A :=
  fun e => mkRun r e [Called c (thrown r)].

(** A library call that draws from the entropy. *)
Definition gen {A} (c : call) (f : Entropy P -> result A * Entropy P) : M A :=
  fun e => let (r, e') := f e in mkRun r e' [Called c (thrown r)].

(** A step of the language itself that may throw (a method call on a value
    that has no such method). *)
Definition js {A} (r : result A) : M A :=
  fun e => mkRun r e [].

Definition console_error (prefix : string) (error : exn) : M unit :=
  fun e => mkRun (Ok tt) e [Logged prefix error].

End WithProvider.
Arguments mkRun {P A}.
Arguments outcome {P A}.
Arguments entropy_after {P A}.
Arguments events {P A}.
Arguments M P A : clear implicits.
End Effects.
Export Effects.

Declare Scope handler_scope.
Delimit Scope handler_scope with handler.
Notation "x <- m ;; k" := (bind m (fun x => k))
  (at level 61, m at next level, right associativity) : handler_scope.
Notation "m ;; k" := (bind m (fun _ => k))
  (at level 61, right associativity) : handler_scope.

(* ------------------------------------------------------------------ *)
(** ** Responses *)
(* ------------------------------------------------------------------ *)

Record request : Type := { query : list (string * value) }.

(** [res.status(status).json(body)] *)
Record response : Type := { status : nat; body : value }.

Definition success_of (r : response) : value := field (body r) "success".
Definition error_of (r : response) : value := field (body r) "error".
Definition data_of (r : response) : value := field (body r) "data".

Definition respond (code : nat) (json : value) : response :=
  {| status := code; body := json |}.

(* ------------------------------------------------------------------ *)
(** ** [index.js] *)
(* ------------------------------------------------------------------ *)

Module Index.
Section Handlers.
Context {P : Provider}.
Local Open Scope handler_scope.

(** [app.get('/sign', ...)] *)
Definition sign (req : request) : M P response :=
  try_catch
    (let key := prop (query req) "key" in
     let message := prop (query req) "message" in
     if negb (truthy key) || negb (truthy message) then
       ret (respond 400 (VObj [
         ("error", VStr "Private key and message are required");
         ("success", VBool false)]))
     else
       wallet <- lib (CNewWallet key) (new_Wallet P key) ;;
       let address := wallet_address P wallet in
       signature <- lib (CSignMessage message) (signMessage P wallet message) ;;
       ret (respond 200 (VObj [
         ("success", VBool true);
         ("data", VObj [
            ("address", VStr address);
            ("message", message);
            ("signature", VStr signature)])])))
    (fun error =>
       console_error "Error signing message:" error ;;
       ret (respond 500 (VObj [
         ("error", VStr "Error signing message. Please ensure the private key is valid.");
         ("success", VBool false)]))).

(** [app.get('/verify', ...)] *)
Definition verify (req : request) : M P response :=
  try_catch
    (let message := prop (query req) "message" in
     let signature := prop (query req) "signature" in
     if negb (truthy message) || negb (truthy signature) then
       ret (respond 400 (VObj [
         ("error", VStr "Message and signature are required");
         ("success", VBool false)]))
     else
       recoveredAddress <-
         lib (CVerifyMessage message signature) (verifyMessage P message signature) ;;
       ret (respond 200 (VObj [
         ("success", VBool true);
         ("data", VObj [
            ("recoveredAddress", VStr recoveredAddress);
            ("message", message);
            ("isValid", VBool true)])])))
    (fun error =>
       console_error "Error verifying signature:" error ;;
       ret (respond 500 (VObj [
         ("error", VStr "Error verifying signature");
         ("success", VBool false)]))).

(** [app.get('/generate-eth', ...)] *)
Definition generate_eth (req : request) : M P response :=
  try_catch
    (mnemonic <- gen CGenerateMnemonic (generateMnemonic P) ;;
     phrase <- lib (CMnemonicFromPhrase mnemonic) (Mnemonic_fromPhrase P mnemonic) ;;
     hdWallet <- lib CFromMnemonic (HDNodeWallet_fromMnemonic P phrase) ;;
     let derivationPath := "m/44'/60'/0'/0/0" in
     wallet <- lib (CDerivePath derivationPath) (derivePath P hdWallet derivationPath) ;;
     ret (respond 200 (VObj [
       ("success", VBool true);
       ("data", VObj [
          ("address", VStr (hd_address P wallet));
          ("privateKey", VStr (hd_privateKey P wallet));
          ("mnemonic", VStr mnemonic);
          ("publicKey", VStr (hd_publicKey P wallet));
          ("derivationPath", VStr derivationPath)])])))
    (fun error =>
       console_error "Error generating ETH wallet:" error ;;
       try_catch
         (mnemonic <- gen CGenerateMnemonic (generateMnemonic P) ;;
          randomWallet <- gen CCreateRandom (Wallet_createRandom P) ;;
          ret (respond 200 (VObj [
            ("success", VBool true);
            ("data", VObj [
               ("address", VStr (hd_address P randomWallet));
               ("privateKey", VStr (hd_privateKey P randomWallet));
               ("mnemonic", VStr mnemonic);
               ("publicKey", VStr (hd_publicKey P randomWallet));
               ("derivationPath", VStr "random")])])))
         (fun fallbackError =>
            console_error "Error in fallback wallet generation:" fallbackError ;;
            ret (respond 500 (VObj [
              ("error", VStr "Error generating ETH wallet");
              ("success", VBool false)])))).

(** [app.get('/generate-sui', ...)] *)
Definition generate_sui (req : request) : M P response :=
  try_catch
    (keypair <- gen CNewKeypair (new_Ed25519Keypair P) ;;
     pk <- lib CGetPublicKey (getPublicKey P keypair) ;;
     address <- lib CToSuiAddress (toSuiAddress P pk) ;;
     privateKeyBytes <- lib CGetSecretKey (getSecretKey P keypair) ;;
     pk' <- lib CGetPublicKey (getPublicKey P keypair) ;;
     publicKey <- lib CToBase64 (toBase64 P pk') ;;
     let privateKeyHex := toString_hex (Buffer_from (slice privateKeyBytes 0 32)) in
     ret (respond 200 (VObj [
       ("success", VBool true);
       ("data", VObj [
          ("address", VStr address);
          ("privateKey", VStr privateKeyHex);
          ("publicKey", VStr publicKey);
          ("keyType", VStr "Ed25519")])])))
    (fun error =>
       console_error "Error generating SUI wallet:" error ;;
       ret (respond 500 (VObj [
         ("error", VStr "Error generating SUI wallet");
         ("success", VBool false)]))).

(** [app.get('/sui-key-to-address', ...)] *)
Definition sui_key_to_address (req : request) : M P response :=
  try_catch
    (let privateKey := prop (query req) "privateKey" in
     if negb (truthy privateKey) then
       ret (respond 400 (VObj [
         ("error", VStr "Private key is required");
         ("success", VBool false)]))
     else
       this <- js (receiver privateKey "replace") ;;
       let cleanPrivateKey := replace this "0x" "" in
       if negb (Nat.eqb (String.length cleanPrivateKey) 64) then
         ret (respond 400 (VObj [
           ("error", VStr "Invalid private key length. Expected 64 hex characters for Ed25519.");
           ("success", VBool false)]))
       else
         let privateKeyBytes := Buffer_from_hex cleanPrivateKey in
         keypair <- lib (CFromSecretKey privateKeyBytes)
                        (Ed25519Keypair_fromSecretKey P privateKeyBytes) ;;
         pk <- lib CGetPublicKey (getPublicKey P keypair) ;;
         address <- lib CToSuiAddress (toSuiAddress P pk) ;;
         pk' <- lib CGetPublicKey (getPublicKey P keypair) ;;
         publicKey <- lib CToBase64 (toBase64 P pk') ;;
         ret (respond 200 (VObj [
           ("success", VBool true);
           ("data", VObj [
              ("address", VStr address);
              ("publicKey", VStr publicKey);
              ("privateKey", VStr cleanPrivateKey);
              ("keyType", VStr "Ed25519")])])))
    (fun error =>
       console_error "Error converting SUI private key:" error ;;
       ret (respond 500 (VObj [
         ("error", VStr "Error converting SUI private key. Please ensure the private key is valid.");
         ("success", VBool false)]))).

(** [app.get('/eth-key-to-wallet', ...)] *)
Definition eth_key_to_wallet (req : request) : M P response :=
  try_catch
    (let privateKey := prop (query req) "privateKey" in
     if negb (truthy privateKey) then
       ret (respond 400 (VObj [
         ("error", VStr "Private key is required");
         ("success", VBool false)]))
     else
       this <- js (receiver privateKey "startsWith") ;;
       let cleanPrivateKey := if startsWith this "0x" then this else ("0x" ++ this)%string in
       if negb (Nat.eqb (String.length cleanPrivateKey) 66) then
         ret (respond 400 (VObj [
           ("error", VStr "Invalid private key format. Expected 64 hex characters (with or without 0x prefix).");
           ("success", VBool false)]))
       else
         wallet <- lib (CNewWallet (VStr cleanPrivateKey)) (new_Wallet P (VStr cleanPrivateKey)) ;;
         let address := wallet_address P wallet in
         let publicKey := wallet_publicKey P wallet in
         compressedPublicKey <-
           lib (CComputePublicKey cleanPrivateKey true)
               (computePublicKey P cleanPrivateKey true) ;;
         ret (respond 200 (VObj [
           ("success", VBool true);
           ("data", VObj [
              ("address", VStr address);
              ("privateKey", VStr cleanPrivateKey);
              ("publicKey", publicKey);
              ("compressedPublicKey", VStr compressedPublicKey)])])))
    (fun error =>
       console_error "Error converting ETH private key:" error ;;
       ret (respond 500 (VObj [
         ("error", VStr "Error converting ETH private key. Please ensure the private key is valid.");
         ("success", VBool false)]))).

(** The six routes that answer JSON, by the paths they are registered
    with.  The seventh, [app.get('/')], sends the documentation page with
    [res.send] and is not in this table, nor are the static files; and the
    table knows the literal paths only, where Express also matches another
    letter case and a trailing slash.  It serves to name a handler by its
    path. *)
Definition app (path : string) : option (request -> M P response) :=
  if String.eqb path "/sign" then Some sign
  else if String.eqb path "/verify" then Some verify
  else if String.eqb path "/generate-eth" then Some generate_eth
  else if String.eqb path "/generate-sui" then Some generate_sui
  else if String.eqb path "/sui-key-to-address" then Some sui_key_to_address
  else if String.eqb path "/eth-key-to-wallet" then Some eth_key_to_wallet
  else None.

End Handlers.
End Index.

(* ------------------------------------------------------------------ *)
(** ** [main.js] *)
(* ------------------------------------------------------------------ *)

Module Main.
Section Handlers.
Context {P : Provider}.
Local Open Scope handler_scope.

(** [app.get('/sign', ...)]; [res.json] without [res.status] answers 200. *)
Definition sign (req : request) : M P response :=
  let key := prop (query req) "key" in
  let message := prop (query req) "message" in
  if negb (truthy key) || negb (truthy message) then
    ret (respond 400 (VObj [("error", VStr "Missing key or message")]))
  else
    try_catch
      (wallet <- lib (CNewWallet key) (new_Wallet P key) ;;
       signature <- lib (CSignMessage message) (signMessage P wallet message) ;;
       ret (respond 200 (VObj [
         ("address", VStr (wallet_address P wallet));
         ("signature", VStr signature)])))
      (fun err =>
         ret (respond 500 (VObj [
           ("error", VStr "Invalid key or signing error");
           ("details", VStr (emessage err))]))).

End Handlers.
End Main.

(* ------------------------------------------------------------------ *)
(** ** Vocabulary of the statements *)
(* ------------------------------------------------------------------ *)

(** The textual shape of a private key of either scheme: 64 hexadecimal
    digits, with or without a leading [0x]. *)
Definition hex64 (s : string) : bool :=
  Nat.eqb (String.length s) 64 && all_chars is_hex s.

Definition key_shape (s : string) : bool :=
  if startsWith s "0x" then hex64 (drop 2 s) else hex64 s.

(** A handler guards the shape of the key it is given if it makes no
    library call unless the key is a string of that shape. *)
Definition guards_key_shape {P : Provider}
    (h : request -> M P response) (param : string) : Prop :=
  forall req e,
    calls (events (h req e)) <> [] ->
    exists s, prop (query req) param = VStr s /\ key_shape s = true.

(** Some library call of the run threw. *)
Definition some_call_failed (tr : list event) : bool := existsb failed_call tr.

(** The body of a failed request is the same whatever was sent and whatever
    the library threw. *)
Definition failure_body_fixed (h : forall P : Provider, request -> M P response) : Prop :=
  exists b : value,
    forall (P : Provider) req e resp,
      outcome (h P req e) = Ok resp ->
      some_call_failed (events (h P req e)) = true ->
      status resp = 500 ->
      body resp = b.

(** The error envelope of [index.js]. *)
Definition error_envelope (msg : string) : value :=
  VObj [("error", VStr msg); ("success", VBool false)].

(** The message each route of [index.js] answers a caught exception with. *)
Definition caught_message (path : string) : string :=
  if String.eqb path "/sign" then
    "Error signing message. Please ensure the private key is valid."
  else if String.eqb path "/verify" then "Error verifying signature"
  else if String.eqb path "/generate-eth" then "Error generating ETH wallet"
  else if String.eqb path "/generate-sui" then "Error generating SUI wallet"
  else if String.eqb path "/sui-key-to-address" then
    "Error converting SUI private key. Please ensure the private key is valid."
  else "Error converting ETH private key. Please ensure the private key is valid.".

(** The signing library is sound for a key: the wallet is built, every
    string is signed, and recovery from a signature made with the key gives
    the wallet's address. *)
Definition signs_and_recovers (P : Provider) (k : string) : Prop :=
  k <> "" /\
  exists w, new_Wallet P (VStr k) = Ok w /\
    forall m, exists sig,
      sig <> "" /\
      signMessage P w (VStr m) = Ok sig /\
      verifyMessage P (VStr m) (VStr sig) = Ok (wallet_address P w).

(** The same libraries, with every phrase that [bip39.generateMnemonic]
    returns replaced by its image under [f]. *)
Definition with_phrases (f : string -> string) (P : Provider) : Provider := {|
  Entropy := Entropy P;
  Wallet := Wallet P;
  new_Wallet := new_Wallet P;
  wallet_address := wallet_address P;
  wallet_publicKey := wallet_publicKey P;
  signMessage := signMessage P;
  verifyMessage := verifyMessage P;
  computePublicKey := computePublicKey P;
  Mnemonic := Mnemonic P;
  Mnemonic_fromPhrase := Mnemonic_fromPhrase P;
  HDNodeWallet := HDNodeWallet P;
  HDNodeWallet_fromMnemonic := HDNodeWallet_fromMnemonic P;
  derivePath := derivePath P;
  Wallet_createRandom := Wallet_createRandom P;
  hd_address := hd_address P;
  hd_privateKey := hd_privateKey P;
  hd_publicKey := hd_publicKey P;
  generateMnemonic := fun e =>
    match generateMnemonic P e with
    | (Ok m, e') => (Ok (f m), e')
    | (Throw x, e') => (Throw x, e')
    end;
  Ed25519Keypair := Ed25519Keypair P;
  PublicKey := PublicKey P;
  new_Ed25519Keypair := new_Ed25519Keypair P;
  Ed25519Keypair_fromSecretKey := Ed25519Keypair_fromSecretKey P;
  getPublicKey := getPublicKey P;
  getSecretKey := getSecretKey P;
  toSuiAddress := toSuiAddress P;
  toBase64 := toBase64 P
|}.

(** The wallet part of a [/generate-eth] answer. *)
Definition wallet_fields (resp : response) : value * value * value :=
  (field (data_of resp) "address",
   field (data_of resp) "privateKey",
   field (data_of resp) "publicKey").

(** A parameter that was not sent, or was sent empty. *)
Definition blank (v : value) : Prop := v = VUndefined \/ v = VStr "".

(** The run that answers a missing parameter: one response, no library
    call, nothing logged, the entropy untouched. *)
Definition rejected {P : Provider} (msg : string) (e : Entropy P) : Run (P := P) response :=
  mkRun (Ok (respond 400 (error_envelope msg))) e [].

(** [cleanPrivateKey] of [/eth-key-to-wallet]. *)
Definition prefixed (s : string) : string :=
  if startsWith s "0x" then s else ("0x" ++ s)%string.

(** [cleanPrivateKey] of [/sui-key-to-address]. *)
Definition stripped (s : string) : string := replace s "0x" "".

(** Signing [m] with [k] through [/sign] gives a signature, and [/verify]
    on that signature and [m] recovers the address that [/sign] returned,
    which is the address of the wallet of [k]. *)
Definition round_trip (P : Provider) (k m : string) : Prop :=
  forall (sreq : request) (e : Entropy P),
    prop (query sreq) "key" = VStr k ->
    prop (query sreq) "message" = VStr m ->
    exists sresp sig w,
      outcome (Index.sign sreq e) = Ok sresp /\
      new_Wallet P (VStr k) = Ok w /\
      field (data_of sresp) "address" = VStr (wallet_address P w) /\
      field (data_of sresp) "signature" = VStr sig /\
      forall (vreq : request) (e' : Entropy P),
        prop (query vreq) "signature" = VStr sig ->
        prop (query vreq) "message" = VStr m ->
        exists vresp,
          outcome (Index.verify vreq e') = Ok vresp /\
          field (data_of vresp) "recoveredAddress" = field (data_of sresp) "address".

(** A key of the right shape, for running the handlers. *)
Definition a_key : string :=
  "0x0123456789abcdef0123456789abcdef0123456789abcdef0123456789abcdef".

(** The [try] block of [/generate-eth] as a function of the entropy: the
    phrase and the wallet derived from it at the standard path. *)
Definition hd_attempt (P : Provider) (e : Entropy P)
    : result (string * HDNodeWallet P) * Entropy P :=
  match generateMnemonic P e with
  | (Throw x, e1) => (Throw x, e1)
  | (Ok mnemonic, e1) =>
      match Mnemonic_fromPhrase P mnemonic with
      | Throw x => (Throw x, e1)
      | Ok phrase =>
          match HDNodeWallet_fromMnemonic P phrase with
          | Throw x => (Throw x, e1)
          | Ok hdWallet =>
              match derivePath P hdWallet "m/44'/60'/0'/0/0" with
              | Throw x => (Throw x, e1)
              | Ok wallet => (Ok (mnemonic, wallet), e1)
              end
          end
      end
  end.

(** The [try] block of the fallback: a phrase and a random wallet. *)
Definition fallback_attempt (P : Provider) (e : Entropy P)
    : result (string * HDNodeWallet P) * Entropy P :=
  match generateMnemonic P e with
  | (Throw x, e1) => (Throw x, e1)
  | (Ok mnemonic, e1) =>
      match Wallet_createRandom P e1 with
      | (Throw x, e2) => (Throw x, e2)
      | (Ok randomWallet, e2) => (Ok (mnemonic, randomWallet), e2)
      end
  end.

(** The success answer of [/generate-eth]. *)
Definition generated {P : Provider} (mnemonic : string) (wallet : HDNodeWallet P)
    (path : string) : response :=
  respond 200 (VObj [
    ("success", VBool true);
    ("data", VObj [
       ("address", VStr (hd_address P wallet));
       ("privateKey", VStr (hd_privateKey P wallet));
       ("mnemonic", VStr mnemonic);
       ("publicKey", VStr (hd_publicKey P wallet));
       ("derivationPath", VStr path)])]).

(** In a run of a route of [index.js], every exception a library call threw
    was logged, and a run in which a call threw answers 500 with the
    route's fixed envelope, or, for [/generate-eth] only, with the
    fallback wallet. *)
Definition caught_and_logged {P : Provider} (path : string) (r : Run (P := P) response) : Prop :=
  (forall c x, In (Called c (Some x)) (events r) ->
     exists prefix, In (Logged prefix x) (events r)) /\
  (some_call_failed (events r) = true ->
     exists resp,
       outcome r = Ok resp /\
       ((status resp = 500 /\ body resp = error_envelope (caught_message path)) \/
        (path = "/generate-eth" /\ status resp = 200 /\
         field (data_of resp) "derivationPath" = VStr "random"))).

(** 64 characters, none of them a hex digit. *)
Definition not_hex_64 : string :=
  "zzzzzzzzzzzzzzzzzzzzzzzzzzzzzzzzzzzzzzzzzzzzzzzzzzzzzzzzzzzzzzzz".



(** [s.includes(pat)]: [pat] occurs somewhere in [s]. *)
Fixpoint includes (s pat : string) : bool :=
  if String.prefix pat s then true
  else match s with
       | EmptyString => false
       | String _ s' => includes s' pat
       end.

Definition is_log (ev : event) : bool :=
  match ev with Logged _ _ => true | Called _ _ => false end.

(** The number of lines a run wrote with [console.error]. *)
Definition log_lines (tr : list event) : nat := List.length (filter is_log tr).

(** The two shapes of an answer of [index.js]: [{success: true, data}] with
    200, or [{error, success: false}] with 400 or 500. *)
Definition enveloped (resp : response) : Prop :=
  (status resp = 200 /\ success_of resp = VBool true /\
   error_of resp = VUndefined /\ exists d, data_of resp = VObj d) \/
  ((status resp = 400 \/ status resp = 500) /\
   exists msg, body resp = error_envelope msg).

(** A query value that is there and is not a string: [qs] makes an array of
    a repeated parameter and an object of a bracketed one. *)
Definition not_a_string (v : value) : Prop :=
  truthy v = true /\ forall s, v <> VStr s.

(* ------------------------------------------------------------------ *)
(** ** A stand-in for the libraries *)
(* ------------------------------------------------------------------ *)

(** Handlers are run on concrete requests against this stand-in.  It does no
    cryptography; it has the libraries' interface and their way of failing:
    a key of the wrong shape is refused, a signature names its signer, and
    [getSecretKey] returns what the flag [bech32] says: the [suiprivkey1...]
    text that [@mysten/sui] documents, or the raw bytes.  [hd] says whether
    [derivePath] returns.  Its wallets have no [publicKey] property. *)
Module Mock.

Definition refuse {A} (msg : string) : result A := Throw (Error "Error" msg).

Definition provider (hd bech32 : bool) : Provider := {|
  Entropy := nat;
  Wallet := string;
  new_Wallet := fun key =>
    match key with
    | VStr s =>
        if key_shape s
        then Ok (if startsWith s "0x" then s else ("0x" ++ s)%string)
        else refuse "invalid private key"
    | _ => refuse "invalid BytesLike value"
    end;
  wallet_address := fun w => ("address-of:" ++ w)%string;
  wallet_publicKey := fun _ => VUndefined;
  signMessage := fun w message =>
    match message with
    | VStr _ => Ok ("signed-by:" ++ w)%string
    | _ => refuse "invalid message"
    end;
  verifyMessage := fun message signature =>
    match message, signature with
    | VStr _, VStr sig =>
        if startsWith sig "signed-by:"
        then Ok ("address-of:" ++ drop 10 sig)%string
        else refuse "invalid signature"
    | _, _ => refuse "invalid signature"
    end;
  computePublicKey := fun key _ => Ok ("compressed-of:" ++ key)%string;
  Mnemonic := string;
  Mnemonic_fromPhrase := fun phrase => Ok phrase;
  HDNodeWallet := string;
  HDNodeWallet_fromMnemonic := fun m => Ok m;
  derivePath := fun w path =>
    if hd then Ok (w ++ path)%string
    else refuse "cannot derive root path for a node at non-zero depth";
  Wallet_createRandom := fun e =>
    (Ok (String (ascii_of_nat (65 + e)) "-random"), S e);
  hd_address := fun w => ("address-of:" ++ w)%string;
  hd_privateKey := fun w => ("private-of:" ++ w)%string;
  hd_publicKey := fun w => ("public-of:" ++ w)%string;
  generateMnemonic := fun e =>
    (Ok (String (ascii_of_nat (97 + e)) " mnemonic words"), S e);
  Ed25519Keypair := list byte;
  PublicKey := list byte;
  new_Ed25519Keypair := fun e => (Ok (repeat (byte_of_N (N.of_nat e)) 32), S e);
  Ed25519Keypair_fromSecretKey := fun secretKey =>
    if Nat.eqb (List.length secretKey) 32 then Ok secretKey
    else refuse "Wrong secretKey size. Expected 32 bytes.";
  getPublicKey := fun kp => Ok (rev kp);
  getSecretKey := fun kp =>
    Ok (if bech32 then Text ("suiprivkey1" ++ toString_hex kp)%string
        else Bytes kp);
  toSuiAddress := fun pk => Ok ("0x" ++ toString_hex pk)%string;
  toBase64 := fun pk => Ok (toString_hex pk)
|}.

Definition get (params : list (string * string)) : request :=
  {| query := map (fun kv => (fst kv, VStr (snd kv))) params |}.

End Mock.

(* ------------------------------------------------------------------ *)
(** ** Proof steps for runs *)
(* ------------------------------------------------------------------ *)

Ltac step_handler :=
  unfold try_catch, bind, lib, gen, js, ret, throw, console_error;
  cbn [outcome entropy_after events thrown List.app].

Ltac pick_event H :=
  repeat (destruct H as [H | H];
          [first [discriminate H | injection H as <- <- | idtac] |]);
  try contradiction.

Ltac settle_run :=
  cbn; split;
  [ let c := fresh "c" in let x := fresh "x" in let H := fresh "H" in
    intros c x H; pick_event H; eexists; cbn; eauto 10
  | let H := fresh "H" in
    intros H;
    first [ discriminate H
          | eexists; split; [reflexivity | cbn; eauto 10] ] ].


(* ------------------------------------------------------------------ *)
(** ** Strings and buffers *)
(* ------------------------------------------------------------------ *)

Section StringFacts.

Lemma length_append (a b : string) :
  String.length (a ++ b) = String.length a + String.length b.
Proof.
  induction a as [|c a IH]; simpl; [reflexivity | now rewrite IH].
Qed.

Lemma truthy_string (s : string) : truthy (VStr s) = true <-> s <> "".
Proof.
  simpl. destruct (String.eqb_spec s ""); simpl; split; intros; congruence.
Qed.

Lemma hex_of_byte_length (b : byte) : String.length (hex_of_byte b) = 2.
Proof. reflexivity. Qed.

Lemma hex_of_byte_lower (b : byte) : all_chars lower_hex (hex_of_byte b) = true.
Proof. destruct b; reflexivity. Qed.

Lemma all_chars_append p (a b : string) :
  all_chars p (a ++ b) = all_chars p a && all_chars p b.
Proof.
  induction a as [|c a IH]; simpl; [reflexivity |].
  now rewrite IH, andb_assoc.
Qed.

Lemma toString_hex_length (buf : list byte) :
  String.length (toString_hex buf) = 2 * List.length buf.
Proof.
  induction buf as [|b buf IH]; [reflexivity |].
  cbn [toString_hex List.length]. rewrite length_append, hex_of_byte_length, IH. lia.
Qed.

Lemma toString_hex_lower (buf : list byte) :
  all_chars lower_hex (toString_hex buf) = true.
Proof.
  induction buf as [|b buf IH]; [reflexivity |].
  cbn [toString_hex]. now rewrite all_chars_append, hex_of_byte_lower, IH.
Qed.

(** Decoding is the inverse of encoding: a byte is read back from its two
    digits. *)
Lemma Buffer_from_hex_of_byte (b : byte) (s : string) :
  Buffer_from_hex (hex_of_byte b ++ s) = b :: Buffer_from_hex s.
Proof. destruct b; reflexivity. Qed.

Lemma Buffer_from_hex_toString_hex (buf : list byte) :
  Buffer_from_hex (toString_hex buf) = buf.
Proof.
  induction buf as [|b buf IH]; [reflexivity |].
  cbn [toString_hex]. now rewrite Buffer_from_hex_of_byte, IH.
Qed.

Lemma substring_0_length (n : nat) (s : string) :
  n <= String.length s -> String.length (substring 0 n s) = n.
Proof.
  revert s. induction n as [|n IH]; intros [|c s] H; simpl in *;
    try reflexivity; try lia.
  rewrite IH; lia.
Qed.

Lemma all_chars_substring_0 p (n : nat) (s : string) :
  all_chars p s = true -> all_chars p (substring 0 n s) = true.
Proof.
  revert s. induction n as [|n IH]; intros [|c s] H; simpl in *; try reflexivity.
  apply andb_true_iff in H as [Hc Hs]. now rewrite Hc, IH.
Qed.

Lemma utf8_seven_bit_length (s : string) :
  all_chars seven_bit s = true -> List.length (utf8 s) = String.length s.
Proof.
  induction s as [|c s IH]; simpl; [reflexivity |].
  intros H. apply andb_true_iff in H as [Hc Hs].
  unfold utf8_unit. unfold seven_bit in Hc. rewrite Hc. simpl. now rewrite IH.
Qed.

Lemma firstn_32_length {A} (l : list A) :
  32 <= List.length l -> List.length (firstn 32 l) = 32.
Proof. intros H. rewrite length_firstn. lia. Qed.

End StringFacts.

(* ------------------------------------------------------------------ *)
(** ** Running a handler *)
(* ------------------------------------------------------------------ *)

Lemma blank_falsy (v : value) : blank v -> truthy v = false.
Proof. intros [-> | ->]; reflexivity. Qed.

Section Validation.
Context {P : Provider}.

Lemma sign_rejects (req : request) (e : Entropy P) :
  truthy (prop (query req) "key") && truthy (prop (query req) "message") = false ->
  Index.sign req e = rejected "Private key and message are required" e.
Proof.
  intros H. unfold Index.sign. step_handler.
  destruct (truthy (prop (query req) "key")), (truthy (prop (query req) "message"));
    try discriminate H; reflexivity.
Qed.

Lemma verify_rejects (req : request) (e : Entropy P) :
  truthy (prop (query req) "message") && truthy (prop (query req) "signature") = false ->
  Index.verify req e = rejected "Message and signature are required" e.
Proof.
  intros H. unfold Index.verify. step_handler.
  destruct (truthy (prop (query req) "message")), (truthy (prop (query req) "signature"));
    try discriminate H; reflexivity.
Qed.

Lemma sui_key_to_address_rejects (req : request) (e : Entropy P) :
  truthy (prop (query req) "privateKey") = false ->
  Index.sui_key_to_address req e = rejected "Private key is required" e.
Proof.
  intros H. unfold Index.sui_key_to_address. step_handler. now rewrite H.
Qed.

Lemma eth_key_to_wallet_rejects (req : request) (e : Entropy P) :
  truthy (prop (query req) "privateKey") = false ->
  Index.eth_key_to_wallet req e = rejected "Private key is required" e.
Proof.
  intros H. unfold Index.eth_key_to_wallet. step_handler. now rewrite H.
Qed.

(** What [/sign] does once both parameters are there. *)
Lemma sign_accepts (req : request) (e : Entropy P) :
  truthy (prop (query req) "key") = true ->
  truthy (prop (query req) "message") = true ->
  let key := prop (query req) "key" in
  let message := prop (query req) "message" in
  Index.sign req e =
    match new_Wallet P key with
    | Throw x =>
        mkRun (Ok (respond 500 (error_envelope (caught_message "/sign")))) e
          [Called (CNewWallet key) (Some x); Logged "Error signing message:" x]
    | Ok wallet =>
        match signMessage P wallet message with
        | Throw x =>
            mkRun (Ok (respond 500 (error_envelope (caught_message "/sign")))) e
              [Called (CNewWallet key) None; Called (CSignMessage message) (Some x);
               Logged "Error signing message:" x]
        | Ok signature =>
            mkRun (Ok (respond 200 (VObj [
                     ("success", VBool true);
                     ("data", VObj [
                        ("address", VStr (wallet_address P wallet));
                        ("message", message);
                        ("signature", VStr signature)])]))) e
              [Called (CNewWallet key) None; Called (CSignMessage message) None]
        end
    end.
Proof.
  intros Hk Hm key message. subst key message. unfold Index.sign. step_handler.
  cbv zeta. rewrite Hk, Hm. cbn [negb orb]. step_handler.
  destruct (new_Wallet P _) as [wallet|x];
    cbn [outcome entropy_after events thrown List.app];
    [destruct (signMessage P wallet _) |]; reflexivity.
Qed.

(** What [/verify] does once both parameters are there. *)
Lemma verify_accepts (req : request) (e : Entropy P) :
  truthy (prop (query req) "message") = true ->
  truthy (prop (query req) "signature") = true ->
  let message := prop (query req) "message" in
  let signature := prop (query req) "signature" in
  Index.verify req e =
    match verifyMessage P message signature with
    | Throw x =>
        mkRun (Ok (respond 500 (error_envelope (caught_message "/verify")))) e
          [Called (CVerifyMessage message signature) (Some x);
           Logged "Error verifying signature:" x]
    | Ok recoveredAddress =>
        mkRun (Ok (respond 200 (VObj [
                 ("success", VBool true);
                 ("data", VObj [
                    ("recoveredAddress", VStr recoveredAddress);
                    ("message", message);
                    ("isValid", VBool true)])]))) e
          [Called (CVerifyMessage message signature) None]
    end.
Proof.
  intros Hm Hs message signature. subst message signature.
  unfold Index.verify. step_handler.
  cbv zeta. rewrite Hm, Hs. cbn [negb orb]. step_handler.
  destruct (verifyMessage P _ _); reflexivity.
Qed.

End Validation.

Section KeyConversion.
Context {P : Provider}.

Lemma eth_key_to_wallet_string (req : request) (e : Entropy P) (s : string) :
  prop (query req) "privateKey" = VStr s ->
  s <> "" ->
  Index.eth_key_to_wallet req e =
    let clean := prefixed s in
    if Nat.eqb (String.length clean) 66 then
      match new_Wallet P (VStr clean) with
      | Throw x =>
          mkRun (Ok (respond 500 (error_envelope (caught_message "/eth-key-to-wallet")))) e
            [Called (CNewWallet (VStr clean)) (Some x);
             Logged "Error converting ETH private key:" x]
      | Ok wallet =>
          match computePublicKey P clean true with
          | Throw x =>
              mkRun (Ok (respond 500 (error_envelope (caught_message "/eth-key-to-wallet")))) e
                [Called (CNewWallet (VStr clean)) None;
                 Called (CComputePublicKey clean true) (Some x);
                 Logged "Error converting ETH private key:" x]
          | Ok compressed =>
              mkRun (Ok (respond 200 (VObj [
                       ("success", VBool true);
                       ("data", VObj [
                          ("address", VStr (wallet_address P wallet));
                          ("privateKey", VStr clean);
                          ("publicKey", wallet_publicKey P wallet);
                          ("compressedPublicKey", VStr compressed)])]))) e
                [Called (CNewWallet (VStr clean)) None;
                 Called (CComputePublicKey clean true) None]
          end
      end
    else
      rejected
        "Invalid private key format. Expected 64 hex characters (with or without 0x prefix)."
        e.
Proof.
  intros Hq Hs. apply truthy_string in Hs.
  unfold Index.eth_key_to_wallet. step_handler. cbv zeta.
  rewrite Hq, Hs. cbn [negb receiver]. step_handler. fold (prefixed s).
  destruct (Nat.eqb (String.length (prefixed s)) 66); cbn [negb]; [| reflexivity].
  step_handler.
  destruct (new_Wallet P _) as [wallet|x];
    cbn [outcome entropy_after events thrown List.app];
    [destruct (computePublicKey P _ _) |]; reflexivity.
Qed.

Lemma sui_key_to_address_string (req : request) (e : Entropy P) (s : string) :
  prop (query req) "privateKey" = VStr s ->
  s <> "" ->
  Index.sui_key_to_address req e =
    let clean := stripped s in
    let secretKey := Buffer_from_hex clean in
    let caught x tr :=
      mkRun (Ok (respond 500 (error_envelope (caught_message "/sui-key-to-address")))) e
        (tr ++ [Logged "Error converting SUI private key:" x]) in
    if Nat.eqb (String.length clean) 64 then
      match Ed25519Keypair_fromSecretKey P secretKey with
      | Throw x => caught x [Called (CFromSecretKey secretKey) (Some x)]
      | Ok keypair =>
        match getPublicKey P keypair with
        | Throw x =>
            caught x [Called (CFromSecretKey secretKey) None; Called CGetPublicKey (Some x)]
        | Ok pk =>
          match toSuiAddress P pk with
          | Throw x =>
              caught x [Called (CFromSecretKey secretKey) None; Called CGetPublicKey None;
                        Called CToSuiAddress (Some x)]
          | Ok address =>
            match toBase64 P pk with
            | Throw x =>
                caught x [Called (CFromSecretKey secretKey) None; Called CGetPublicKey None;
                          Called CToSuiAddress None; Called CGetPublicKey None;
                          Called CToBase64 (Some x)]
            | Ok publicKey =>
                mkRun (Ok (respond 200 (VObj [
                         ("success", VBool true);
                         ("data", VObj [
                            ("address", VStr address);
                            ("publicKey", VStr publicKey);
                            ("privateKey", VStr clean);
                            ("keyType", VStr "Ed25519")])]))) e
                  [Called (CFromSecretKey secretKey) None; Called CGetPublicKey None;
                   Called CToSuiAddress None; Called CGetPublicKey None;
                   Called CToBase64 None]
            end
          end
        end
      end
    else
      rejected "Invalid private key length. Expected 64 hex characters for Ed25519." e.
Proof.
  intros Hq Hs. apply truthy_string in Hs.
  unfold Index.sui_key_to_address. step_handler. cbv zeta.
  rewrite Hq, Hs. cbn [negb receiver]. step_handler. fold (stripped s).
  destruct (Nat.eqb (String.length (stripped s)) 64); cbn [negb]; [| reflexivity].
  step_handler.
  destruct (Ed25519Keypair_fromSecretKey P _) as [keypair|x];
    cbn [outcome entropy_after events thrown List.app]; [| reflexivity].
  destruct (getPublicKey P keypair) as [pk|x];
    cbn [outcome entropy_after events thrown List.app]; [| reflexivity].
  destruct (toSuiAddress P pk) as [address|x];
    cbn [outcome entropy_after events thrown List.app]; [| reflexivity].
  destruct (toBase64 P pk) as [publicKey|x];
    cbn [outcome entropy_after events thrown List.app]; reflexivity.
Qed.

(** A key that is there but is not a string (a repeated or a bracketed
    parameter) has no string method: the [TypeError] is caught. *)
Lemma eth_key_to_wallet_not_string (req : request) (e : Entropy P) :
  truthy (prop (query req) "privateKey") = true ->
  (forall s, prop (query req) "privateKey" <> VStr s) ->
  Index.eth_key_to_wallet req e =
    mkRun (Ok (respond 500 (error_envelope (caught_message "/eth-key-to-wallet")))) e
      [Logged "Error converting ETH private key:" (not_a_function "startsWith")].
Proof.
  intros Ht Hn. unfold Index.eth_key_to_wallet. step_handler. cbv zeta.
  rewrite Ht. cbn [negb].
  destruct (prop (query req) "privateKey"); try discriminate Ht;
    try reflexivity.
  now elim (Hn s).
Qed.

Lemma sui_key_to_address_not_string (req : request) (e : Entropy P) :
  truthy (prop (query req) "privateKey") = true ->
  (forall s, prop (query req) "privateKey" <> VStr s) ->
  Index.sui_key_to_address req e =
    mkRun (Ok (respond 500 (error_envelope (caught_message "/sui-key-to-address")))) e
      [Logged "Error converting SUI private key:" (not_a_function "replace")].
Proof.
  intros Ht Hn. unfold Index.sui_key_to_address. step_handler. cbv zeta.
  rewrite Ht. cbn [negb].
  destruct (prop (query req) "privateKey"); try discriminate Ht;
    try reflexivity.
  now elim (Hn s).
Qed.

End KeyConversion.

(* ------------------------------------------------------------------ *)
(** ** Validation of the query parameters *)
(* ------------------------------------------------------------------ *)

(** C9. [/sign] without [key] or without [message] answers 400 with
    [success: false] and an error string and calls no library; when a
    library call of [/sign] fails, the answer is 500 with
    [success: false]. *)
Theorem sign_missing_parameter_or_failure :
  forall (P : Provider) (req : request) (e : Entropy P),
    let r := Index.sign req e in
    (prop (query req) "key" = VUndefined \/ prop (query req) "message" = VUndefined ->
       exists resp msg,
         outcome r = Ok resp /\ status resp = 400 /\
         success_of resp = VBool false /\ error_of resp = VStr msg /\
         events r = []) /\
    (prop (query req) "key" <> VUndefined ->
     prop (query req) "message" <> VUndefined ->
     some_call_failed (events r) = true ->
       exists resp,
         outcome r = Ok resp /\ status resp = 500 /\ success_of resp = VBool false).
Proof.
  intros P req e r. subst r. split.
  - intros H.
    rewrite sign_rejects.
    + eexists _, _. repeat split; reflexivity.
    + destruct H as [-> | ->]; [reflexivity | apply andb_false_r].
  - intros _ _.
    destruct (truthy (prop (query req) "key")) eqn:Hk;
      [destruct (truthy (prop (query req) "message")) eqn:Hm |].
    + rewrite (sign_accepts req e Hk Hm). cbv zeta.
      destruct (new_Wallet P _) as [wallet|x];
        [destruct (signMessage P wallet _) |];
        cbn; intros H; try discriminate H;
        eexists; repeat split; reflexivity.
    + rewrite sign_rejects by (rewrite Hk, Hm; reflexivity). discriminate.
    + rewrite sign_rejects by (rewrite Hk; reflexivity). discriminate.
Qed.

Lemma sign_missing_parameter_or_failure_witness :
  let P := Mock.provider true true in
  let missing := Mock.get [("key", "0x01")] in
  let bad := Mock.get [("key", "zz"); ("message", "hello")] in
  (exists resp msg,
     outcome (Index.sign (P := P) missing 0) = Ok resp /\ status resp = 400 /\
     success_of resp = VBool false /\ error_of resp = VStr msg /\
     events (Index.sign (P := P) missing 0) = []) /\
  (exists resp,
     outcome (Index.sign (P := P) bad 0) = Ok resp /\ status resp = 500 /\
     success_of resp = VBool false).
Proof.
  intros P missing bad. split.
  - apply (proj1 (sign_missing_parameter_or_failure P missing 0)).
    right. reflexivity.
  - apply (proj2 (sign_missing_parameter_or_failure P bad 0));
      [discriminate | discriminate | reflexivity].
Defined.

(** C10. A required parameter sent as the empty string is treated as a
    parameter that was not sent: in both cases the run is the same one,
    which answers 400 with [success: false], calls no library and logs
    nothing. *)
Theorem empty_parameter_is_missing :
  forall (P : Provider) (req : request) (e : Entropy P),
    (blank (prop (query req) "key") \/ blank (prop (query req) "message") ->
       Index.sign req e = rejected "Private key and message are required" e) /\
    (blank (prop (query req) "signature") \/ blank (prop (query req) "message") ->
       Index.verify req e = rejected "Message and signature are required" e) /\
    (blank (prop (query req) "privateKey") ->
       Index.eth_key_to_wallet req e = rejected "Private key is required" e) /\
    (blank (prop (query req) "privateKey") ->
       Index.sui_key_to_address req e = rejected "Private key is required" e).
Proof.
  intros P req e. repeat split.
  - intros [H | H]; apply blank_falsy in H; apply sign_rejects; rewrite H;
      [reflexivity | apply andb_false_r].
  - intros [H | H]; apply blank_falsy in H; apply verify_rejects; rewrite H;
      [apply andb_false_r | reflexivity].
  - intros H. apply eth_key_to_wallet_rejects, blank_falsy, H.
  - intros H. apply sui_key_to_address_rejects, blank_falsy, H.
Qed.

Lemma empty_parameter_is_missing_witness :
  let P := Mock.provider true true in
  let empty := Mock.get [("key", ""); ("message", "hello"); ("signature", "");
                         ("privateKey", "")] in
  Index.sign (P := P) empty 0 = rejected (P := P) "Private key and message are required" 0 /\
  Index.verify (P := P) empty 0 = rejected (P := P) "Message and signature are required" 0 /\
  Index.eth_key_to_wallet (P := P) empty 0 = rejected (P := P) "Private key is required" 0 /\
  Index.sui_key_to_address (P := P) empty 0 = rejected (P := P) "Private key is required" 0.
Proof.
  intros P empty.
  destruct (empty_parameter_is_missing P empty 0) as (Hs & Hv & He & Hu).
  split; [| split; [| split]].
  - apply Hs. left. right. reflexivity.
  - apply Hv. left. right. reflexivity.
  - apply He. right. reflexivity.
  - apply Hu. right. reflexivity.
Defined.

(** C2. [/verify] always answers; an answer that is a success has
    [isValid: true]; no answer has [isValid: false]; and when recovery
    fails the exception is caught and the answer is 500 with
    [success: false]. *)
Theorem verify_isValid_only_true :
  forall (P : Provider) (req : request) (e : Entropy P),
    let r := Index.verify req e in
    exists resp,
      outcome r = Ok resp /\
      (success_of resp = VBool true -> field (data_of resp) "isValid" = VBool true) /\
      field (data_of resp) "isValid" <> VBool false /\
      (some_call_failed (events r) = true ->
         status resp = 500 /\ success_of resp = VBool false).
Proof.
  intros P req e r. subst r.
  destruct (truthy (prop (query req) "message")) eqn:Hm;
    [destruct (truthy (prop (query req) "signature")) eqn:Hs |].
  - rewrite (verify_accepts req e Hm Hs). cbv zeta.
    destruct (verifyMessage P _ _); eexists; cbn;
      repeat split; try reflexivity; try discriminate.
  - rewrite verify_rejects by (rewrite Hm, Hs; reflexivity).
    eexists; cbn; repeat split; discriminate.
  - rewrite verify_rejects by (rewrite Hm; reflexivity).
    eexists; cbn; repeat split; discriminate.
Qed.

Lemma verify_isValid_only_true_witness :
  let P := Mock.provider true true in
  let bad := Mock.get [("signature", "not-a-signature"); ("message", "hello")] in
  exists resp,
    outcome (Index.verify (P := P) bad 0) = Ok resp /\
    status resp = 500 /\ success_of resp = VBool false.
Proof.
  intros P bad.
  destruct (verify_isValid_only_true P bad 0) as (resp & Ho & _ & _ & Hf).
  exists resp. split; [exact Ho |]. apply Hf. reflexivity.
Defined.






Lemma stripped_leading_0x (rest : string) : stripped ("0x" ++ rest) = rest.
Proof. destruct rest; reflexivity. Qed.

Lemma stripped_inner_0x (rest : string) :
  stripped ("a0x" ++ rest) = ("a" ++ rest)%string.
Proof. destruct rest; reflexivity. Qed.

(** The length check of [/sui-key-to-address] is on the key with its first
    [0x] taken out. *)
Lemma sui_key_to_address_length_check :
  forall (P : Provider) (req : request) (e : Entropy P) (s : string),
    prop (query req) "privateKey" = VStr s ->
    exists resp,
      outcome (Index.sui_key_to_address req e) = Ok resp /\
      (status resp = 400 <-> String.length (stripped s) <> 64).
Proof.
  intros P req e s Hq.
  destruct (String.eqb_spec s "") as [-> | Hs].
  - rewrite sui_key_to_address_rejects by (rewrite Hq; reflexivity).
    eexists. split; [reflexivity |]. cbn. split; [discriminate | reflexivity].
  - rewrite (sui_key_to_address_string req e s Hq Hs). cbv zeta.
    destruct (Nat.eqb_spec (String.length (stripped s)) 64) as [Hl | Hl].
    + destruct (Ed25519Keypair_fromSecretKey P _) as [keypair|x];
        [destruct (getPublicKey P keypair) as [pk|x];
         [destruct (toSuiAddress P pk); [destruct (toBase64 P pk) |] |] |];
        (eexists; split; [reflexivity |]); cbn;
        (split; [discriminate | congruence]).
    + eexists. split; [reflexivity |]. cbn. split; [intros _; exact Hl | reflexivity].
Qed.

(** A leading [0x] is taken out, and 63 digits after it are refused. *)
Lemma sui_key_to_address_0x_63 :
  forall (P : Provider) (req : request) (e : Entropy P) (rest : string),
    prop (query req) "privateKey" = VStr ("0x" ++ rest) ->
    String.length rest = 63 ->
    exists resp,
      outcome (Index.sui_key_to_address req e) = Ok resp /\ status resp = 400.
Proof.
  intros P req e rest Hq Hl.
  destruct (sui_key_to_address_length_check P req e _ Hq) as (resp & Ho & Hs).
  exists resp. split; [exact Ho |]. apply Hs.
  rewrite stripped_leading_0x. lia.
Qed.

(** C8. [/sui-key-to-address] takes out the first [0x] of the key wherever
    it stands, not only a leading one: a key of 66 characters that does not
    start with [0x] but holds [0x] after its first digit passes the length
    check, is decoded without those two characters and handed to
    [Ed25519Keypair.fromSecretKey]; the answer is not 400. *)
Theorem sui_key_to_address_strips_inner_0x :
  forall (P : Provider) (req : request) (e : Entropy P) (rest : string),
    prop (query req) "privateKey" = VStr ("a0x" ++ rest) ->
    String.length rest = 63 ->
    let r := Index.sui_key_to_address req e in
    startsWith ("a0x" ++ rest) "0x" = false /\
    String.length ("a0x" ++ rest) = 66 /\
    exists resp t,
      outcome r = Ok resp /\
      status resp <> 400 /\
      hd_error (events r) =
        Some (Called (CFromSecretKey (Buffer_from_hex ("a" ++ rest))) t) /\
      (status resp = 200 -> field (data_of resp) "privateKey" = VStr ("a" ++ rest)).
Proof.
  intros P req e rest Hq Hl r. subst r.
  split; [reflexivity |]. split; [simpl; lia |].
  rewrite (sui_key_to_address_string req e _ Hq) by discriminate.
  cbv zeta. rewrite stripped_inner_0x.
  replace (String.length ("a" ++ rest)) with 64 by (simpl; lia).
  cbn [Nat.eqb].
  destruct (Ed25519Keypair_fromSecretKey P _) as [keypair|x];
    [destruct (getPublicKey P keypair) as [pk|x];
     [destruct (toSuiAddress P pk); [destruct (toBase64 P pk) |] |] |];
    eexists _, _; cbn;
    (split; [reflexivity |]); (split; [discriminate |]);
    (split; [reflexivity |]); first [reflexivity | discriminate].
Qed.

Lemma sui_key_to_address_strips_inner_0x_witness :
  let P := Mock.provider true true in
  let rest := "123456789abcdef0123456789abcdef0123456789abcdef0123456789abcdef" in
  exists resp t,
    outcome (Index.sui_key_to_address (P := P)
               (Mock.get [("privateKey", ("a0x" ++ rest)%string)]) 0) = Ok resp /\
    status resp <> 400 /\
    hd_error (events (Index.sui_key_to_address (P := P)
               (Mock.get [("privateKey", ("a0x" ++ rest)%string)]) 0)) =
      Some (Called (CFromSecretKey (Buffer_from_hex ("a" ++ rest))) t) /\
    (status resp = 200 -> field (data_of resp) "privateKey" = VStr ("a" ++ rest)).
Proof.
  intros P rest.
  exact (proj2 (proj2 (sui_key_to_address_strips_inner_0x P
           (Mock.get [("privateKey", ("a0x" ++ rest)%string)]) 0 rest eq_refl eq_refl))).
Defined.

(* ------------------------------------------------------------------ *)
(** ** Signing and recovering *)
(* ------------------------------------------------------------------ *)

Lemma mock_signs_and_recovers (hd bech32 : bool) :
  signs_and_recovers (Mock.provider hd bech32) a_key.
Proof.
  split; [discriminate |].
  exists a_key. split; [reflexivity |].
  intros m. exists ("signed-by:" ++ a_key)%string.
  split; [discriminate |]. split; reflexivity.
Qed.

(** C1, as it is written, fails on the empty message: [/sign] refuses it
    with 400 and returns no signature. *)
Lemma round_trip_fails_on_empty_message :
  signs_and_recovers (Mock.provider true true) a_key /\
  ~ round_trip (Mock.provider true true) a_key "".
Proof.
  split; [apply mock_signs_and_recovers |].
  intros H.
  destruct (H (Mock.get [("key", a_key); ("message", "")]) 0 eq_refl eq_refl)
    as (sresp & sig & w & Ho & _ & _ & Hsig & _).
  cbv in Ho. injection Ho as <-. discriminate Hsig.
Qed.

(** C1. For a key the signing library is sound for, and a message that is
    not empty, [/verify] on the message and the signature that [/sign]
    returned recovers the address that [/sign] returned, the address of the
    key. *)
Theorem sign_then_verify_recovers_address :
  forall (P : Provider) (k m : string),
    signs_and_recovers P k ->
    m <> "" ->
    round_trip P k m.
Proof.
  intros P k m (Hk & w & Hw & Hsign) Hm sreq e Hqk Hqm.
  destruct (Hsign m) as (sig & Hsig & Hs & Hv).
  assert (Tk : truthy (prop (query sreq) "key") = true)
    by (rewrite Hqk; now apply truthy_string).
  assert (Tm : truthy (prop (query sreq) "message") = true)
    by (rewrite Hqm; now apply truthy_string).
  rewrite (sign_accepts sreq e Tk Tm). cbv zeta.
  rewrite Hqk, Hqm, Hw, Hs.
  eexists _, sig, w. cbn.
  split; [reflexivity |]. split; [reflexivity |].
  split; [reflexivity |]. split; [reflexivity |].
  intros vreq e' Hqs Hqm'.
  assert (Tm' : truthy (prop (query vreq) "message") = true)
    by (rewrite Hqm'; now apply truthy_string).
  assert (Ts : truthy (prop (query vreq) "signature") = true)
    by (rewrite Hqs; now apply truthy_string).
  rewrite (verify_accepts vreq e' Tm' Ts). cbv zeta.
  rewrite Hqs, Hqm', Hv.
  eexists. split; reflexivity.
Qed.

Lemma sign_then_verify_recovers_address_witness :
  round_trip (Mock.provider true true) a_key "hello".
Proof.
  apply sign_then_verify_recovers_address.
  - split; [discriminate |].
    exists a_key. split; [reflexivity |].
    intros m. exists ("signed-by:" ++ a_key)%string.
    split; [discriminate |]. split; reflexivity.
  - discriminate.
Defined.

(* ------------------------------------------------------------------ *)
(** ** Wallet generation *)
(* ------------------------------------------------------------------ *)

Section Generation.
Context (P : Provider).

Lemma hd_attempt_entropy (e : Entropy P) :
  snd (hd_attempt P e) = snd (generateMnemonic P e).
Proof.
  unfold hd_attempt. destruct (generateMnemonic P e) as [[m|x] e1]; [| reflexivity].
  destruct (Mnemonic_fromPhrase P m) as [ph|x]; [| reflexivity].
  destruct (HDNodeWallet_fromMnemonic P ph) as [hd|x]; [| reflexivity].
  destruct (derivePath P hd _); reflexivity.
Qed.

Lemma generate_eth_outcome (req : request) (e : Entropy P) :
  outcome (Index.generate_eth (P := P) req e) =
    Ok match hd_attempt P e with
       | (Ok (mnemonic, wallet), _) => generated mnemonic wallet "m/44'/60'/0'/0/0"
       | (Throw _, e1) =>
           match fallback_attempt P e1 with
           | (Ok (mnemonic, randomWallet), _) => generated mnemonic randomWallet "random"
           | (Throw _, _) => respond 500 (error_envelope (caught_message "/generate-eth"))
           end
       end.
Proof.
  unfold Index.generate_eth, hd_attempt, fallback_attempt. step_handler.
  destruct (generateMnemonic P e) as [[m|x] e1];
    cbn [outcome entropy_after events thrown List.app].
  1: destruct (Mnemonic_fromPhrase P m) as [ph|x];
    cbn [outcome entropy_after events thrown List.app].
  1: destruct (HDNodeWallet_fromMnemonic P ph) as [hd|x];
    cbn [outcome entropy_after events thrown List.app].
  1: destruct (derivePath P hd _) as [w|x];
    cbn [outcome entropy_after events thrown List.app].
  1: reflexivity.
  all: destruct (generateMnemonic P e1) as [[m2|x2] e2];
    cbn [outcome entropy_after events thrown List.app]; [| reflexivity];
    destruct (Wallet_createRandom P e2) as [[w2|x3] e3]; reflexivity.
Qed.

End Generation.

Lemma fallback_attempt_with_phrases (P : Provider) (f : string -> string) (e : Entropy P) :
  fallback_attempt (with_phrases f P) e =
    match fallback_attempt P e with
    | (Ok (mnemonic, randomWallet), e') => (Ok (f mnemonic, randomWallet), e')
    | (Throw x, e') => (Throw x, e')
    end.
Proof.
  unfold fallback_attempt. cbn.
  destruct (generateMnemonic P e) as [[m|x] e1]; [| reflexivity].
  destruct (Wallet_createRandom P e1) as [[w|x] e2]; reflexivity.
Qed.

Lemma generateMnemonic_with_phrases_entropy
    (P : Provider) (f : string -> string) (e : Entropy P) :
  snd (generateMnemonic (with_phrases f P) e) = snd (generateMnemonic P e).
Proof.
  cbn. destruct (generateMnemonic P e) as [[m|x] e1]; reflexivity.
Qed.

(** C3. [/generate-eth] always answers, in one of three ways.  When the
    derivation from the fresh phrase returns, it is a success with
    [derivationPath] the standard path.  When the derivation throws and the
    fallback returns, it is a success with [derivationPath: "random"]; the
    wallet is the one [Wallet.createRandom] made and the phrase shown is the
    second one generated, which the wallet does not depend on: with other
    phrases in place of the generated ones, a fallback answer has the same
    wallet.  When the fallback throws too, the answer is 500 with
    [success: false]. *)
Theorem generate_eth_three_outcomes :
  forall (P : Provider) (req : request) (e : Entropy P),
    exists resp,
      outcome (Index.generate_eth req e) = Ok resp /\
      (forall mnemonic wallet e1,
         hd_attempt P e = (Ok (mnemonic, wallet), e1) ->
         status resp = 200 /\ success_of resp = VBool true /\
         field (data_of resp) "derivationPath" = VStr "m/44'/60'/0'/0/0" /\
         field (data_of resp) "mnemonic" = VStr mnemonic) /\
      (forall x e1 mnemonic randomWallet e2,
         hd_attempt P e = (Throw x, e1) ->
         fallback_attempt P e1 = (Ok (mnemonic, randomWallet), e2) ->
         status resp = 200 /\ success_of resp = VBool true /\
         field (data_of resp) "derivationPath" = VStr "random" /\
         field (data_of resp) "mnemonic" = VStr mnemonic /\
         wallet_fields resp =
           (VStr (hd_address P randomWallet),
            VStr (hd_privateKey P randomWallet),
            VStr (hd_publicKey P randomWallet)) /\
         forall (f : string -> string) resp',
           outcome (Index.generate_eth (P := with_phrases f P) req e) = Ok resp' ->
           field (data_of resp') "derivationPath" = VStr "random" ->
           field (data_of resp') "mnemonic" = VStr (f mnemonic) /\
           wallet_fields resp' = wallet_fields resp) /\
      (forall x e1 x' e2,
         hd_attempt P e = (Throw x, e1) ->
         fallback_attempt P e1 = (Throw x', e2) ->
         status resp = 500 /\ success_of resp = VBool false /\
         error_of resp = VStr "Error generating ETH wallet").
Proof.
  intros P req e. eexists. split; [apply generate_eth_outcome |].
  split; [| split].
  - intros mnemonic wallet e1 H. rewrite H. cbn. repeat split.
  - intros x e1 mnemonic randomWallet e2 H F. rewrite H, F. cbn.
    do 5 (split; [reflexivity |]).
    intros f resp' Ho Hp.
    rewrite generate_eth_outcome in Ho. injection Ho as <-.
    pose proof (hd_attempt_entropy (with_phrases f P) e) as He'.
    rewrite generateMnemonic_with_phrases_entropy, <- (hd_attempt_entropy P e), H in He'.
    cbn [snd] in He'.
    destruct (hd_attempt (with_phrases f P) e) as [[[m' w']|x'] e1'].
    + discriminate Hp.
    + cbn [snd] in He'. subst e1'.
      rewrite fallback_attempt_with_phrases, F in *. cbn. split; reflexivity.
  - intros x e1 x' e2 H F. rewrite H, F. cbn. repeat split.
Qed.

Lemma generate_eth_three_outcomes_witness :
  (exists resp,
     outcome (Index.generate_eth (P := Mock.provider true true) (Mock.get []) 0) = Ok resp /\
     field (data_of resp) "derivationPath" = VStr "m/44'/60'/0'/0/0") /\
  (exists resp,
     outcome (Index.generate_eth (P := Mock.provider false true) (Mock.get []) 0) = Ok resp /\
     field (data_of resp) "derivationPath" = VStr "random" /\
     field (data_of resp) "mnemonic" = VStr "b mnemonic words").
Proof.
  split.
  - destruct (generate_eth_three_outcomes (Mock.provider true true) (Mock.get []) 0)
      as (resp & Ho & Hhd & _).
    exists resp. split; [exact Ho |].
    exact (proj1 (proj2 (proj2 (Hhd _ _ _ eq_refl)))).
  - destruct (generate_eth_three_outcomes (Mock.provider false true) (Mock.get []) 0)
      as (resp & Ho & _ & Hfb & _).
    exists resp. split; [exact Ho |].
    destruct (Hfb _ _ _ _ _ eq_refl eq_refl) as (_ & _ & Hp & Hm & _).
    split; [exact Hp | exact Hm].
Defined.

Section SuiGeneration.
Context (P : Provider).

(** A success of [/generate-sui] returns, as [privateKey], the hex digits
    of the buffer made from the first 32 elements of what [getSecretKey]
    returned. *)
Lemma generate_sui_success (req : request) (e : Entropy P) (resp : response) :
  outcome (Index.generate_sui (P := P) req e) = Ok resp ->
  status resp = 200 ->
  exists keypair e1 secret,
    new_Ed25519Keypair P e = (Ok keypair, e1) /\
    getSecretKey P keypair = Ok secret /\
    field (data_of resp) "privateKey" =
      VStr (toString_hex (Buffer_from (slice secret 0 32))).
Proof.
  unfold Index.generate_sui. step_handler.
  destruct (new_Ed25519Keypair P e) as [[kp|x] e1]; cbn;
    [| intros [= <-]; discriminate].
  destruct (getPublicKey P kp) as [pk|x]; cbn; [| intros [= <-]; discriminate].
  destruct (toSuiAddress P pk) as [address|x]; cbn; [| intros [= <-]; discriminate].
  destruct (getSecretKey P kp) as [secret|x] eqn:Hs; cbn;
    [| intros [= <-]; discriminate].
  destruct (toBase64 P pk) as [publicKey|x]; cbn; [| intros [= <-]; discriminate].
  intros [= <-] _. exists kp, e1, secret. repeat split. exact Hs.
Qed.

(** Where [getSecretKey] returns the key as bytes, the field is the 64
    lower-case hex digits of its first 32 bytes, and decodes back to them. *)
Lemma generate_sui_privateKey_of_bytes
    (req : request) (e e1 : Entropy P) (resp : response) keypair (b : list byte) :
  outcome (Index.generate_sui (P := P) req e) = Ok resp ->
  status resp = 200 ->
  new_Ed25519Keypair P e = (Ok keypair, e1) ->
  getSecretKey P keypair = Ok (Bytes b) ->
  32 <= List.length b ->
  exists hex,
    field (data_of resp) "privateKey" = VStr hex /\
    hex = toString_hex (firstn 32 b) /\
    String.length hex = 64 /\
    all_chars lower_hex hex = true /\
    Buffer_from_hex hex = firstn 32 b.
Proof.
  intros Ho Hst Hk Hs Hl.
  destruct (generate_sui_success req e resp Ho Hst) as (kp & e1' & secret & Hk' & Hs' & Hf).
  rewrite Hk in Hk'. injection Hk' as <- <-. rewrite Hs in Hs'. injection Hs' as <-.
  eexists. split; [exact Hf |]. cbn [slice Buffer_from skipn].
  split; [reflexivity |].
  split; [rewrite toString_hex_length, firstn_32_length by exact Hl; reflexivity |].
  split; [apply toString_hex_lower | apply Buffer_from_hex_toString_hex].
Qed.

(** Where [getSecretKey] returns a text of one-byte characters, the field
    is 64 lower-case hex digits as well: those of the first 32 characters
    of the text. *)
Lemma generate_sui_privateKey_of_text
    (req : request) (e e1 : Entropy P) (resp : response) keypair (s : string) :
  outcome (Index.generate_sui (P := P) req e) = Ok resp ->
  status resp = 200 ->
  new_Ed25519Keypair P e = (Ok keypair, e1) ->
  getSecretKey P keypair = Ok (Text s) ->
  all_chars seven_bit s = true ->
  32 <= String.length s ->
  exists hex,
    field (data_of resp) "privateKey" = VStr hex /\
    hex = toString_hex (utf8 (substring 0 32 s)) /\
    String.length hex = 64 /\
    all_chars lower_hex hex = true.
Proof.
  intros Ho Hst Hk Hs Ha Hl.
  destruct (generate_sui_success req e resp Ho Hst) as (kp & e1' & secret & Hk' & Hs' & Hf).
  rewrite Hk in Hk'. injection Hk' as <- <-. rewrite Hs in Hs'. injection Hs' as <-.
  eexists. split; [exact Hf |]. cbn [slice Buffer_from Nat.sub].
  split; [reflexivity |].
  split; [| apply toString_hex_lower].
  rewrite toString_hex_length, utf8_seven_bit_length, substring_0_length; try lia.
  now apply all_chars_substring_0.
Qed.

End SuiGeneration.

(** C4. Where [getSecretKey] returns the key as the text [suiprivkey1...]
    (its Bech32 form), the [privateKey] of a success of [/generate-sui] is
    the hex digits of the first 32 characters of that text: it starts with
    the digits of ["suiprivkey1"], whatever the key is, and is not the hex
    encoding of the 32 bytes of the key. *)
Theorem generate_sui_privateKey_of_bech32_text :
  forall (P : Provider) (req : request) (e e1 : Entropy P) (resp : response)
         (keypair : Ed25519Keypair P) (rest : string),
    outcome (Index.generate_sui req e) = Ok resp ->
    status resp = 200 ->
    new_Ed25519Keypair P e = (Ok keypair, e1) ->
    getSecretKey P keypair = Ok (Text ("suiprivkey1" ++ rest)) ->
    field (data_of resp) "privateKey" =
      VStr ("737569707269766b657931" ++ toString_hex (utf8 (substring 0 21 rest))).
Proof.
  intros P req e e1 resp keypair rest Ho Hst Hk Hs.
  destruct (generate_sui_success P req e resp Ho Hst) as (kp & e1' & secret & Hk' & Hs' & Hf).
  rewrite Hk in Hk'. injection Hk' as <- <-. rewrite Hs in Hs'. injection Hs' as <-.
  rewrite Hf. reflexivity.
Qed.

Lemma generate_sui_privateKey_of_bech32_text_witness :
  exists resp,
    outcome (Index.generate_sui (P := Mock.provider true true) (Mock.get []) 7) = Ok resp /\
    field (data_of resp) "privateKey" =
      VStr "737569707269766b657931303730373037303730373037303730373037303730".
Proof.
  eexists. split; [reflexivity |].
  exact (generate_sui_privateKey_of_bech32_text (Mock.provider true true) (Mock.get []) 7 8
           _ _ _ eq_refl eq_refl eq_refl eq_refl).
Defined.

(* ------------------------------------------------------------------ *)
(** ** Exceptions of the libraries *)
(* ------------------------------------------------------------------ *)

Lemma value_cases (v : value) :
  truthy v = false \/
  (exists s, v = VStr s /\ s <> "") \/
  (truthy v = true /\ forall s, v <> VStr s).
Proof.
  destruct v as [| [|] | s | l | o]; cbn; auto.
  - right. right. split; [reflexivity | discriminate].
  - destruct (String.eqb_spec s "") as [-> | Hs]; cbn; eauto.
  - right. right. split; [reflexivity | discriminate].
  - right. right. split; [reflexivity | discriminate].
Qed.

Section Caught.
Context {P : Provider}.

Lemma sign_caught (req : request) (e : Entropy P) :
  caught_and_logged "/sign" (Index.sign req e).
Proof.
  destruct (truthy (prop (query req) "key")) eqn:Hk;
    [destruct (truthy (prop (query req) "message")) eqn:Hm |].
  - rewrite (sign_accepts req e Hk Hm). cbv zeta.
    destruct (new_Wallet P _) as [wallet|x0];
      [destruct (signMessage P wallet _) as [sig|x0] |]; settle_run.
  - rewrite sign_rejects by (rewrite Hk, Hm; reflexivity). settle_run.
  - rewrite sign_rejects by (rewrite Hk; reflexivity). settle_run.
Qed.






End Caught.

Section MainSign.
Context {P : Provider}.

Lemma main_sign_rejects (req : request) (e : Entropy P) :
  truthy (prop (query req) "key") && truthy (prop (query req) "message") = false ->
  Main.sign req e =
    mkRun (Ok (respond 400 (VObj [("error", VStr "Missing key or message")]))) e [].
Proof.
  intros H. unfold Main.sign. cbv zeta.
  destruct (truthy (prop (query req) "key")), (truthy (prop (query req) "message"));
    try discriminate H; reflexivity.
Qed.

Lemma main_sign_accepts (req : request) (e : Entropy P) :
  truthy (prop (query req) "key") = true ->
  truthy (prop (query req) "message") = true ->
  let key := prop (query req) "key" in
  let message := prop (query req) "message" in
  let caught x tr :=
    mkRun (Ok (respond 500 (VObj [
             ("error", VStr "Invalid key or signing error");
             ("details", VStr (emessage x))]))) e tr in
  Main.sign req e =
    match new_Wallet P key with
    | Throw x => caught x [Called (CNewWallet key) (Some x)]
    | Ok wallet =>
        match signMessage P wallet message with
        | Throw x =>
            caught x [Called (CNewWallet key) None; Called (CSignMessage message) (Some x)]
        | Ok signature =>
            mkRun (Ok (respond 200 (VObj [
                     ("address", VStr (wallet_address P wallet));
                     ("signature", VStr signature)]))) e
              [Called (CNewWallet key) None; Called (CSignMessage message) None]
        end
    end.
Proof.
  intros Hk Hm key message caught. subst key message caught.
  unfold Main.sign. cbv zeta. rewrite Hk, Hm. cbn [negb orb]. step_handler.
  destruct (new_Wallet P _) as [wallet|x]; cbn [thrown];
    [destruct (signMessage P wallet _) |]; reflexivity.
Qed.

End MainSign.

(** The [/sign] of [index.js] answers every failed call with one body. *)
Lemma index_sign_failure_body_fixed : failure_body_fixed (@Index.sign).
Proof.
  exists (error_envelope (caught_message "/sign")).
  intros P req e resp Ho Hf Hst.
  destruct (proj2 (sign_caught req e) Hf) as (resp' & Ho' & [[_ Hb] | [Hp _]]).
  - rewrite Ho in Ho'. injection Ho' as <-. exact Hb.
  - discriminate Hp.
Qed.




(* ------------------------------------------------------------------ *)
(** ** What is checked before a library is called *)
(* ------------------------------------------------------------------ *)

(** C5, as it is written, fails on every key route: [/sign] hands any
    non-empty key to the wallet constructor, and the two conversion routes
    hand over a key of the right length that holds no hex digit. *)
Lemma key_shape_is_not_guarded :
  let P := Mock.provider true true in
  ~ guards_key_shape (Index.sign (P := P)) "key" /\
  ~ guards_key_shape (Index.eth_key_to_wallet (P := P)) "privateKey" /\
  ~ guards_key_shape (Index.sui_key_to_address (P := P)) "privateKey".
Proof.
  intros P. split; [| split]; intros H.
  - destruct (H (Mock.get [("key", "zz"); ("message", "hello")]) 0)
      as (s & Hs & Hshape); [discriminate |].
    injection Hs as <-. discriminate Hshape.
  - destruct (H (Mock.get [("privateKey", not_hex_64)]) 0)
      as (s & Hs & Hshape); [discriminate |].
    injection Hs as <-. discriminate Hshape.
  - destruct (H (Mock.get [("privateKey", not_hex_64)]) 0)
      as (s & Hs & Hshape); [discriminate |].
    injection Hs as <-. discriminate Hshape.
Qed.

(** When each key route calls a library, as [replace] and [startsWith]
    decide it. *)
Lemma calls_of_the_key_routes :
  forall (P : Provider) (req : request) (e : Entropy P),
    (calls (events (Index.eth_key_to_wallet req e)) <> [] <->
       exists s, prop (query req) "privateKey" = VStr s /\
         String.length (if startsWith s "0x" then s else ("0x" ++ s)%string) = 66) /\
    (calls (events (Index.sui_key_to_address req e)) <> [] <->
       exists s, prop (query req) "privateKey" = VStr s /\
         String.length (replace s "0x" "") = 64) /\
    (calls (events (Index.sign req e)) <> [] <->
       truthy (prop (query req) "key") = true /\
       truthy (prop (query req) "message") = true).
Proof.
  intros P req e. split; [| split].
  - fold prefixed.
    destruct (value_cases (prop (query req) "privateKey")) as [H | [(s & H & Hs) | (H & Hn)]].
    + rewrite eth_key_to_wallet_rejects by exact H. cbn. split; [congruence |].
      intros (s & Hq & Hl). rewrite Hq in H. cbn in H.
      destruct (String.eqb_spec s ""); [subst s | discriminate H]. discriminate Hl.
    + rewrite (eth_key_to_wallet_string req e s H Hs). cbv zeta.
      destruct (Nat.eqb_spec (String.length (prefixed s)) 66) as [Hl | Hl].
      * split; [intros _; eauto |]. intros _.
        destruct (new_Wallet P _) as [wallet|x];
          [destruct (computePublicKey P _ _) |]; discriminate.
      * cbn. split; [congruence |].
        intros (s' & Hq & Hl'). rewrite H in Hq. injection Hq as <-. contradiction.
    + rewrite eth_key_to_wallet_not_string by assumption. cbn. split; [congruence |].
      intros (s & Hq & _). elim (Hn s Hq).
  - fold stripped.
    destruct (value_cases (prop (query req) "privateKey")) as [H | [(s & H & Hs) | (H & Hn)]].
    + rewrite sui_key_to_address_rejects by exact H. cbn. split; [congruence |].
      intros (s & Hq & Hl). rewrite Hq in H. cbn in H.
      destruct (String.eqb_spec s ""); [subst s | discriminate H]. discriminate Hl.
    + rewrite (sui_key_to_address_string req e s H Hs). cbv zeta.
      destruct (Nat.eqb_spec (String.length (stripped s)) 64) as [Hl | Hl].
      * split; [intros _; eauto |]. intros _.
        destruct (Ed25519Keypair_fromSecretKey P _) as [keypair|x];
          [destruct (getPublicKey P keypair) as [pk|x];
           [destruct (toSuiAddress P pk); [destruct (toBase64 P pk) |] |] |];
          discriminate.
      * cbn. split; [congruence |].
        intros (s' & Hq & Hl'). rewrite H in Hq. injection Hq as <-. contradiction.
    + rewrite sui_key_to_address_not_string by assumption. cbn. split; [congruence |].
      intros (s & Hq & _). elim (Hn s Hq).
  - destruct (truthy (prop (query req) "key")) eqn:Hk;
      [destruct (truthy (prop (query req) "message")) eqn:Hm |].
    + rewrite (sign_accepts req e Hk Hm). cbv zeta.
      split; [intros _; split; reflexivity |]. intros _.
      destruct (new_Wallet P _) as [wallet|x];
        [destruct (signMessage P wallet _) |]; discriminate.
    + rewrite sign_rejects by (rewrite Hk, Hm; reflexivity). cbn.
      split; [congruence | intros [_ H]; discriminate H].
    + rewrite sign_rejects by (rewrite Hk; reflexivity). cbn.
      split; [congruence | intros [H _]; discriminate H].
Qed.

(* ------------------------------------------------------------------ *)
(** ** The answers of [index.js], route by route *)
(* ------------------------------------------------------------------ *)

(** Each tactic replaces the run of a route by the runs of its cases. *)
Ltac run_sign req e :=
  let Hk := fresh "Hk" in
  let Hm := fresh "Hm" in
  destruct (truthy (prop (query req) "key")) eqn:Hk;
  [ destruct (truthy (prop (query req) "message")) eqn:Hm;
    [ rewrite (sign_accepts req e Hk Hm); cbv zeta;
      let wallet := fresh "wallet" in
      let x := fresh "x" in
      let E := fresh "E" in
      destruct (new_Wallet _ (prop (query req) "key")) as [wallet|x] eqn:E;
      [ let sig := fresh "sig" in
        let E' := fresh "E" in
        destruct (signMessage _ wallet (prop (query req) "message")) as [sig|x] eqn:E' | ]
    | rewrite sign_rejects by (rewrite Hk, Hm; reflexivity) ]
  | rewrite sign_rejects by (rewrite Hk; reflexivity) ].

Ltac run_verify req e :=
  let Hm := fresh "Hm" in
  let Hs := fresh "Hs" in
  destruct (truthy (prop (query req) "message")) eqn:Hm;
  [ destruct (truthy (prop (query req) "signature")) eqn:Hs;
    [ rewrite (verify_accepts req e Hm Hs); cbv zeta;
      let a := fresh "address" in
      let x := fresh "x" in
      let E := fresh "E" in
      destruct (verifyMessage _ (prop (query req) "message")
                  (prop (query req) "signature")) as [a|x] eqn:E
    | rewrite verify_rejects by (rewrite Hm, Hs; reflexivity) ]
  | rewrite verify_rejects by (rewrite Hm; reflexivity) ].

Ltac run_eth_key_to_wallet req e :=
  let H := fresh "Hkey" in
  let s := fresh "s" in
  let Hs := fresh "Hs" in
  let Hn := fresh "Hn" in
  destruct (value_cases (prop (query req) "privateKey")) as [H | [(s & H & Hs) | (H & Hn)]];
  [ rewrite eth_key_to_wallet_rejects by exact H
  | rewrite (eth_key_to_wallet_string req e s H Hs); cbv zeta;
    let Hl := fresh "Hl" in
    destruct (Nat.eqb_spec (String.length (prefixed s)) 66) as [Hl | Hl];
    [ let wallet := fresh "wallet" in
      let x := fresh "x" in
      destruct (new_Wallet _ (VStr (prefixed s))) as [wallet|x];
      [ let c := fresh "compressed" in
        destruct (computePublicKey _ (prefixed s) true) as [c|x] | ]
    | ]
  | rewrite eth_key_to_wallet_not_string by assumption ].

Ltac run_sui_key_to_address req e :=
  let H := fresh "Hkey" in
  let s := fresh "s" in
  let Hs := fresh "Hs" in
  let Hn := fresh "Hn" in
  destruct (value_cases (prop (query req) "privateKey")) as [H | [(s & H & Hs) | (H & Hn)]];
  [ rewrite sui_key_to_address_rejects by exact H
  | rewrite (sui_key_to_address_string req e s H Hs); cbv zeta;
    let Hl := fresh "Hl" in
    destruct (Nat.eqb_spec (String.length (stripped s)) 64) as [Hl | Hl];
    [ let keypair := fresh "keypair" in
      let pk := fresh "pk" in
      let x := fresh "x" in
      destruct (Ed25519Keypair_fromSecretKey _ (Buffer_from_hex (stripped s)))
        as [keypair|x];
      [ destruct (getPublicKey _ keypair) as [pk|x];
        [ destruct (toSuiAddress _ pk) as [?|x];
          [ destruct (toBase64 _ pk) as [?|x] | ] | ] | ]
    | ]
  | rewrite sui_key_to_address_not_string by assumption ].

Ltac run_generate_sui P e :=
  unfold Index.generate_sui; step_handler;
  let kp := fresh "keypair" in
  let pk := fresh "pk" in
  let x := fresh "x" in
  destruct (new_Ed25519Keypair P e) as [[kp|x] ?]; cbn [thrown];
  [ destruct (getPublicKey P kp) as [pk|x];
    [ destruct (toSuiAddress P pk) as [?|x];
      [ destruct (getSecretKey P kp) as [?|x];
        [ destruct (toBase64 P pk) as [?|x] | ] | ] | ] | ].

Ltac run_fallback P e1 :=
  let e2 := fresh "e" in
  let x := fresh "x" in
  destruct (generateMnemonic P e1) as [[?|x] e2]; cbn [thrown];
  [ destruct (Wallet_createRandom P e2) as [[?|x] ?]; cbn [thrown] | ].

Ltac run_generate_eth P e :=
  unfold Index.generate_eth; step_handler;
  let m := fresh "mnemonic" in
  let e1 := fresh "e" in
  let x := fresh "x" in
  destruct (generateMnemonic P e) as [[m|x] e1]; cbn [thrown];
  [ let ph := fresh "phrase" in
    destruct (Mnemonic_fromPhrase P m) as [ph|x];
    [ let hd := fresh "hdWallet" in
      destruct (HDNodeWallet_fromMnemonic P ph) as [hd|x];
      [ destruct (derivePath P hd "m/44'/60'/0'/0/0") as [?|x];
        [ | run_fallback P e1 ]
      | run_fallback P e1 ]
    | run_fallback P e1 ]
  | run_fallback P e1 ].

(** The handler a path is routed to. *)
Ltac route_cases_from Happ :=
  lazymatch type of Happ with
  | (if String.eqb ?path ?p then _ else _) = _ =>
      destruct (String.eqb_spec path p) as [-> | _];
      [injection Happ as <- | route_cases_from Happ]
  | _ => discriminate Happ
  end.

Ltac route_cases Happ := unfold Index.app in Happ; route_cases_from Happ.

Ltac run_route P req e :=
  match goal with
  | |- context [Index.sign req e] => run_sign req e
  | |- context [Index.verify req e] => run_verify req e
  | |- context [Index.eth_key_to_wallet req e] => run_eth_key_to_wallet req e
  | |- context [Index.sui_key_to_address req e] => run_sui_key_to_address req e
  | |- context [Index.generate_sui req e] => run_generate_sui P e
  | |- context [Index.generate_eth req e] => run_generate_eth P e
  end.

(** X1. Each of the six routes of [index.js] that answer JSON ([/sign],
    [/verify], [/generate-eth], [/generate-sui], [/sui-key-to-address],
    [/eth-key-to-wallet]) answers every request, and with one of two
    shapes: 200 with [success: true] and a [data] object and no [error],
    or 400 or 500 with exactly [{error, success: false}]. *)
Theorem every_route_answers_in_the_envelope :
  forall (P : Provider) (path : string) (h : request -> M P response)
         (req : request) (e : Entropy P),
    Index.app path = Some h ->
    exists resp, outcome (h req e) = Ok resp /\ enveloped resp.
Proof.
  intros P path h req e Happ. route_cases Happ; run_route P req e;
    (eexists; split; [reflexivity |]); unfold enveloped; cbn;
    first [ left; split; [reflexivity |]; split; [reflexivity |];
            split; [reflexivity |]; eexists; reflexivity
          | right; split; [auto |]; eexists; reflexivity ].
Qed.

Lemma every_route_answers_in_the_envelope_witness :
  exists resp,
    outcome (Index.generate_sui (P := Mock.provider true false) (Mock.get []) 3) = Ok resp /\
    enveloped resp.
Proof.
  exact (every_route_answers_in_the_envelope (Mock.provider true false)
           "/generate-sui" Index.generate_sui (Mock.get []) 3 eq_refl).
Defined.

(** X2. An answer with 400 is given before anything else is done: the run
    called no library, wrote no log line and drew no entropy; and the two
    generating routes never answer 400. *)
Theorem validation_answer_has_no_effect :
  forall (P : Provider) (path : string) (h : request -> M P response)
         (req : request) (e : Entropy P) (resp : response),
    Index.app path = Some h ->
    outcome (h req e) = Ok resp ->
    status resp = 400 ->
    events (h req e) = [] /\
    entropy_after (h req e) = e /\
    path <> "/generate-eth" /\ path <> "/generate-sui".
Proof.
  intros P path h req e resp Happ. route_cases Happ; run_route P req e;
    cbn; intros [= <-] Hst; try discriminate Hst;
    (split; [reflexivity |]); (split; [reflexivity |]); split; discriminate.
Qed.

Lemma validation_answer_has_no_effect_witness :
  let P := Mock.provider true true in
  let req := Mock.get [("privateKey", "0x1234")] in
  events (Index.eth_key_to_wallet (P := P) req 0) = [] /\
  entropy_after (Index.eth_key_to_wallet (P := P) req 0) = 0 /\
  "/eth-key-to-wallet" <> "/generate-eth" /\ "/eth-key-to-wallet" <> "/generate-sui".
Proof.
  intros P req.
  exact (validation_answer_has_no_effect P "/eth-key-to-wallet" Index.eth_key_to_wallet
           req 0 _ eq_refl eq_refl eq_refl).
Defined.

(** X3. On every route but [/generate-eth], a run writes one log line when
    it answers 500 and none otherwise.  [/generate-eth] writes none when it
    answers with the standard path, one when it answers with the fallback
    wallet, and two when it answers 500. *)
Theorem log_lines_follow_the_answer :
  forall (P : Provider) (req : request) (e : Entropy P),
    (forall path h resp,
       Index.app path = Some h ->
       path <> "/generate-eth" ->
       outcome (h req e) = Ok resp ->
       log_lines (events (h req e)) = if Nat.eqb (status resp) 500 then 1 else 0) /\
    (forall resp,
       outcome (Index.generate_eth req e) = Ok resp ->
       let n := log_lines (events (Index.generate_eth req e)) in
       (field (data_of resp) "derivationPath" = VStr "m/44'/60'/0'/0/0" -> n = 0) /\
       (field (data_of resp) "derivationPath" = VStr "random" -> n = 1) /\
       (status resp = 500 -> n = 2)).
Proof.
  intros P req e. split.
  - intros path h resp Happ Hp. route_cases Happ; try (now elim Hp);
      run_route P req e; cbn; intros [= <-]; reflexivity.
  - intros resp. run_generate_eth P e; cbn; intros [= <-];
      (split; [| split]); intros H; first [reflexivity | discriminate H].
Qed.

Lemma log_lines_follow_the_answer_witness :
  log_lines (events (Index.verify (P := Mock.provider true true)
               (Mock.get [("signature", "junk"); ("message", "hello")]) 0)) = 1 /\
  log_lines (events (Index.generate_eth (P := Mock.provider false true)
               (Mock.get []) 0)) = 1.
Proof.
  split.
  - exact (proj1 (log_lines_follow_the_answer (Mock.provider true true)
             (Mock.get [("signature", "junk"); ("message", "hello")]) 0)
             "/verify" Index.verify _ eq_refl ltac:(discriminate) eq_refl).
  - exact (proj1 (proj2 (proj2 (log_lines_follow_the_answer (Mock.provider false true)
             (Mock.get []) 0) _ eq_refl)) eq_refl).
Defined.

(** X4. No route answers 500 of its own accord: behind every 500 there is
    a library call that threw, or, on the two key routes, a key that is not
    a string. *)
Theorem internal_error_has_a_cause :
  forall (P : Provider) (path : string) (h : request -> M P response)
         (req : request) (e : Entropy P) (resp : response),
    Index.app path = Some h ->
    outcome (h req e) = Ok resp ->
    status resp = 500 ->
    some_call_failed (events (h req e)) = true \/
    ((path = "/eth-key-to-wallet" \/ path = "/sui-key-to-address") /\
     not_a_string (prop (query req) "privateKey")).
Proof.
  intros P path h req e resp Happ. route_cases Happ; run_route P req e;
    cbn; intros [= <-] Hst; try discriminate Hst;
    first [ left; reflexivity
          | right; split; [auto | split; assumption] ].
Qed.

Lemma internal_error_has_a_cause_witness :
  let P := Mock.provider true true in
  let req := Mock.get [("key", "zz"); ("message", "hello")] in
  some_call_failed (events (Index.sign (P := P) req 0)) = true \/
  (("/sign" = "/eth-key-to-wallet" \/ "/sign" = "/sui-key-to-address") /\
   not_a_string (prop (query req) "privateKey")).
Proof.
  intros P req.
  exact (internal_error_has_a_cause P "/sign" Index.sign req 0 _ eq_refl eq_refl eq_refl).
Defined.

(** X5. A key that is there but is not a string is not refused with 400 by
    the key routes: calling [startsWith] or [replace] on it throws, no
    library is called, and the answer is the route's 500. *)
Theorem key_that_is_not_a_string :
  forall (P : Provider) (req : request) (e : Entropy P),
    not_a_string (prop (query req) "privateKey") ->
    (exists resp,
       outcome (Index.eth_key_to_wallet req e) = Ok resp /\
       status resp = 500 /\
       body resp = error_envelope (caught_message "/eth-key-to-wallet") /\
       calls (events (Index.eth_key_to_wallet req e)) = []) /\
    (exists resp,
       outcome (Index.sui_key_to_address req e) = Ok resp /\
       status resp = 500 /\
       body resp = error_envelope (caught_message "/sui-key-to-address") /\
       calls (events (Index.sui_key_to_address req e)) = []).
Proof.
  intros P req e [Ht Hn]. split.
  - rewrite eth_key_to_wallet_not_string by assumption.
    eexists. repeat split.
  - rewrite sui_key_to_address_not_string by assumption.
    eexists. repeat split.
Qed.

Lemma key_that_is_not_a_string_witness :
  let P := Mock.provider true true in
  let req := {| query := [("privateKey", VArr [VStr a_key; VStr a_key])] |} in
  (exists resp,
     outcome (Index.eth_key_to_wallet (P := P) req 0) = Ok resp /\
     status resp = 500 /\
     body resp = error_envelope (caught_message "/eth-key-to-wallet") /\
     calls (events (Index.eth_key_to_wallet (P := P) req 0)) = []) /\
  (exists resp,
     outcome (Index.sui_key_to_address (P := P) req 0) = Ok resp /\
     status resp = 500 /\
     body resp = error_envelope (caught_message "/sui-key-to-address") /\
     calls (events (Index.sui_key_to_address (P := P) req 0)) = []).
Proof.
  intros P req.
  apply (key_that_is_not_a_string P req 0).
  split; [reflexivity | discriminate].
Defined.

(** X6. The [/sign] of [main.js] and the [/sign] of [index.js] decide
    alike: on every request they answer with the same status after the
    same library calls, and a success carries the same address and the same
    signature. *)
Theorem main_sign_agrees_with_index_sign :
  forall (P : Provider) (req : request) (e : Entropy P),
    exists rm ri,
      outcome (Main.sign req e) = Ok rm /\
      outcome (Index.sign req e) = Ok ri /\
      status rm = status ri /\
      calls (events (Main.sign req e)) = calls (events (Index.sign req e)) /\
      (status ri = 200 ->
         exists address signature,
           field (body rm) "address" = VStr address /\
           field (data_of ri) "address" = VStr address /\
           field (body rm) "signature" = VStr signature /\
           field (data_of ri) "signature" = VStr signature).
Proof.
  intros P req e.
  destruct (truthy (prop (query req) "key")) eqn:Hk;
    [destruct (truthy (prop (query req) "message")) eqn:Hm |].
  - rewrite (main_sign_accepts req e Hk Hm), (sign_accepts req e Hk Hm). cbv zeta.
    destruct (new_Wallet P _) as [wallet|x];
      [destruct (signMessage P wallet _) as [sig|x] |];
      eexists _, _; cbn;
      (split; [reflexivity |]); (split; [reflexivity |]);
      (split; [reflexivity |]); (split; [reflexivity |]);
      intros H; try discriminate H.
    eexists _, _. repeat split.
  - rewrite main_sign_rejects, sign_rejects by (rewrite Hk, Hm; reflexivity).
    eexists _, _; cbn. repeat split. discriminate.
  - rewrite main_sign_rejects, sign_rejects by (rewrite Hk; reflexivity).
    eexists _, _; cbn. repeat split. discriminate.
Qed.

(* ------------------------------------------------------------------ *)
(** ** Prefixes and hex digits of a key *)
(* ------------------------------------------------------------------ *)

Lemma prefix_empty (s : string) : String.prefix "" s = true.
Proof. destruct s; reflexivity. Qed.

Lemma prefixed_starts_with_0x (s : string) : startsWith (prefixed s) "0x" = true.
Proof.
  unfold prefixed. destruct (startsWith s "0x") eqn:H; [exact H |].
  unfold startsWith. simpl. apply prefix_empty.
Qed.

Lemma prefixed_idempotent (s : string) : prefixed (prefixed s) = prefixed s.
Proof.
  unfold prefixed at 1. now rewrite prefixed_starts_with_0x.
Qed.

Lemma prefixed_not_empty (s : string) : prefixed s <> "".
Proof.
  intros H. pose proof (prefixed_starts_with_0x s) as Hp.
  rewrite H in Hp. discriminate Hp.
Qed.

Lemma replace_cons (c : ascii) (s pat rep : string) :
  replace (String c s) pat rep =
    if String.prefix pat (String c s)
    then (rep ++ drop (String.length pat) (String c s))%string
    else String c (replace s pat rep).
Proof. reflexivity. Qed.

Lemma includes_cons (c : ascii) (s pat : string) :
  includes (String c s) pat =
    if String.prefix pat (String c s) then true else includes s pat.
Proof. reflexivity. Qed.

Lemma drop_length (n : nat) (s : string) :
  String.length (drop n s) = String.length s - n.
Proof.
  revert s. induction n as [|n IH]; intros [|c s]; simpl; try reflexivity.
  apply IH.
Qed.

Lemma prefix_0x_length (s : string) :
  String.prefix "0x" s = true -> 2 <= String.length s.
Proof.
  intros H. destruct s as [|a [|b s]]; [discriminate H | | simpl; lia].
  cbn [String.prefix] in H. destruct (ascii_dec "0" a); discriminate H.
Qed.

Lemma includes_0x_length (s : string) :
  includes s "0x" = true -> 2 <= String.length s.
Proof.
  induction s as [|c s IH]; [discriminate |].
  rewrite includes_cons.
  destruct (String.prefix "0x" (String c s)) eqn:Hp.
  - intros _. now apply prefix_0x_length.
  - intros H. apply IH in H. simpl. lia.
Qed.

(** Taking out the first [0x] shortens the key by two characters when there
    is one, and leaves it as it is when there is none. *)
Lemma stripped_length (s : string) :
  String.length (stripped s) =
    if includes s "0x" then String.length s - 2 else String.length s.
Proof.
  unfold stripped. induction s as [|c s IH]; [reflexivity |].
  rewrite replace_cons, includes_cons.
  destruct (String.prefix "0x" (String c s)) eqn:Hp.
  - cbn [String.append]. now rewrite drop_length.
  - cbn [String.length]. rewrite IH.
    destruct (includes s "0x") eqn:Hi; [| reflexivity].
    apply includes_0x_length in Hi. lia.
Qed.

Lemma stripped_without_0x (s : string) : includes s "0x" = false -> stripped s = s.
Proof.
  unfold stripped. induction s as [|c s IH]; [reflexivity |].
  rewrite replace_cons, includes_cons.
  destruct (String.prefix "0x" (String c s)); [discriminate |].
  intros H. now rewrite IH.
Qed.

Lemma hex_has_no_0x (s : string) : all_chars is_hex s = true -> includes s "0x" = false.
Proof.
  induction s as [|c s IH]; [reflexivity |].
  intros H. cbn [all_chars] in H. apply andb_true_iff in H as [Hc Hs].
  rewrite includes_cons, (IH Hs).
  destruct s as [|d s]; cbn [String.prefix].
  - destruct (ascii_dec "0" c); reflexivity.
  - destruct (ascii_dec "0" c); [| reflexivity].
    destruct (ascii_dec "x" d) as [<- |]; [| reflexivity].
    cbn in Hs. discriminate Hs.
Qed.

Lemma lower_hex_is_hex (c : ascii) : lower_hex c = true -> is_hex c = true.
Proof.
  destruct c as [[] [] [] [] [] [] [] []]; cbn; intros H;
    first [reflexivity | discriminate H].
Qed.

Lemma all_chars_weaken (p q : ascii -> bool) (s : string) :
  (forall c, p c = true -> q c = true) ->
  all_chars p s = true -> all_chars q s = true.
Proof.
  intros Hpq. induction s as [|c s IH]; [reflexivity |].
  cbn. intros H. apply andb_true_iff in H as [Hc Hs].
  now rewrite (Hpq c Hc), IH.
Qed.

(** Two characters at a time. *)
Lemma string_pairs_ind (Q : string -> Prop) :
  Q "" ->
  (forall a, Q (String a "")) ->
  (forall a b s, Q s -> Q (String a (String b s))) ->
  forall s, Q s.
Proof.
  intros H0 H1 H2.
  assert (H : forall s, Q s /\ forall a, Q (String a s)).
  { induction s as [|b s [IHs IHc]]; split; auto. }
  intros s. apply H.
Qed.

Lemma Buffer_from_hex_length_le (s : string) :
  2 * List.length (Buffer_from_hex s) <= String.length s.
Proof.
  induction s as [| a | a b s IH] using string_pairs_ind; cbn; try lia.
  destruct (unhex a), (unhex b); cbn; lia.
Qed.

(** A string of even length decodes in full exactly when it holds hex
    digits only. *)
Lemma Buffer_from_hex_full (s : string) :
  Nat.even (String.length s) = true ->
  (2 * List.length (Buffer_from_hex s) = String.length s <->
   all_chars is_hex s = true).
Proof.
  induction s as [| a | a b s IH] using string_pairs_ind.
  - intros _. split; reflexivity.
  - discriminate.
  - intros He. cbn [String.length Nat.even] in He. specialize (IH He).
    pose proof (Buffer_from_hex_length_le s) as Hle.
    cbn [Buffer_from_hex all_chars String.length]. unfold is_hex.
    destruct (unhex a), (unhex b); cbn [List.length andb];
      try (split; [intros H; lia | discriminate]).
    rewrite <- IH. lia.
Qed.

(* ------------------------------------------------------------------ *)
(** ** Key conversion *)
(* ------------------------------------------------------------------ *)

(** X7. [/eth-key-to-wallet] answers a key and the same key with [0x] in
    front of it in the same way, calls and log included; and the
    [privateKey] of a success is 66 characters long and starts with [0x],
    so that sending it back gives the same answer again. *)
Theorem eth_key_with_or_without_prefix :
  forall (P : Provider) (req req' : request) (e : Entropy P) (s : string),
    s <> "" ->
    prop (query req) "privateKey" = VStr s ->
    prop (query req') "privateKey" =
      VStr (if startsWith s "0x" then s else ("0x" ++ s)%string) ->
    Index.eth_key_to_wallet req' e = Index.eth_key_to_wallet req e /\
    forall resp,
      outcome (Index.eth_key_to_wallet req e) = Ok resp ->
      status resp = 200 ->
      exists k,
        field (data_of resp) "privateKey" = VStr k /\
        prop (query req') "privateKey" = VStr k /\
        String.length k = 66 /\ startsWith k "0x" = true.
Proof.
  intros P req req' e s Hs Hq Hq'. fold (prefixed s) in Hq'.
  rewrite (eth_key_to_wallet_string req' e (prefixed s) Hq' (prefixed_not_empty s)).
  rewrite (eth_key_to_wallet_string req e s Hq Hs). cbv zeta.
  rewrite prefixed_idempotent. split; [reflexivity |].
  intros resp.
  destruct (Nat.eqb_spec (String.length (prefixed s)) 66) as [Hl | Hl];
    [| cbn; intros [= <-] H; discriminate H].
  destruct (new_Wallet P _) as [wallet|x];
    [destruct (computePublicKey P _ _) as [c|x] |];
    cbn; intros [= <-] H; try discriminate H.
  exists (prefixed s). split; [reflexivity |]. split; [exact Hq' |].
  split; [exact Hl | apply prefixed_starts_with_0x].
Qed.

Lemma eth_key_with_or_without_prefix_witness :
  let P := Mock.provider true true in
  let bare := "0123456789abcdef0123456789abcdef0123456789abcdef0123456789abcdef" in
  Index.eth_key_to_wallet (P := P) (Mock.get [("privateKey", ("0x" ++ bare)%string)]) 0 =
  Index.eth_key_to_wallet (P := P) (Mock.get [("privateKey", bare)]) 0.
Proof.
  intros P bare.
  exact (proj1 (eth_key_with_or_without_prefix P
           (Mock.get [("privateKey", bare)])
           (Mock.get [("privateKey", ("0x" ++ bare)%string)]) 0 bare
           ltac:(discriminate) eq_refl eq_refl)).
Defined.

(** X8. [/sui-key-to-address] lets a string key through its length check
    in two cases only: 64 characters with no [0x] anywhere, or 66
    characters with a [0x] somewhere.  Every other string is answered
    400. *)
Theorem sui_key_lengths_let_through :
  forall (P : Provider) (req : request) (e : Entropy P) (s : string) (resp : response),
    prop (query req) "privateKey" = VStr s ->
    outcome (Index.sui_key_to_address req e) = Ok resp ->
    (status resp <> 400 <->
     (includes s "0x" = false /\ String.length s = 64) \/
     (includes s "0x" = true /\ String.length s = 66)).
Proof.
  intros P req e s resp Hq Ho.
  destruct (sui_key_to_address_length_check P req e s Hq) as (resp' & Ho' & H400).
  rewrite Ho in Ho'. injection Ho' as <-.
  rewrite H400, stripped_length.
  destruct (includes s "0x") eqn:Hi.
  - apply includes_0x_length in Hi.
    split.
    + intros H. right. split; [reflexivity | lia].
    + intros [[H _] | [_ H]]; [discriminate H | lia].
  - split.
    + intros H. left. split; [reflexivity | lia].
    + intros [[_ H] | [H _]]; [lia | discriminate H].
Qed.

Lemma sui_key_lengths_let_through_witness :
  let P := Mock.provider true true in
  let key := ("0123456789abcdef0123456789abcdef0x0123456789abcdef0123456789abcdef")%string in
  exists resp,
    outcome (Index.sui_key_to_address (P := P) (Mock.get [("privateKey", key)]) 0) = Ok resp /\
    status resp <> 400.
Proof.
  intros P key. eexists. split; [reflexivity |].
  apply (sui_key_lengths_let_through P (Mock.get [("privateKey", key)]) 0 key _
           eq_refl eq_refl).
  right. split; reflexivity.
Defined.

(** The first thing a run of [/sui-key-to-address] does with a key that
    passed the length check is to hand its decoded bytes to the library. *)
Lemma sui_key_to_address_first_call
    (P : Provider) (req : request) (e : Entropy P) (s : string) :
  prop (query req) "privateKey" = VStr s ->
  String.length (stripped s) = 64 ->
  exists t,
    hd_error (events (Index.sui_key_to_address req e)) =
      Some (Called (CFromSecretKey (Buffer_from_hex (stripped s))) t).
Proof.
  intros Hq Hl.
  assert (Hs : s <> "") by (intros ->; discriminate Hl).
  rewrite (sui_key_to_address_string req e s Hq Hs). cbv zeta.
  rewrite Hl. cbn [Nat.eqb].
  destruct (Ed25519Keypair_fromSecretKey P _) as [keypair|x];
    [destruct (getPublicKey P keypair) as [pk|x];
     [destruct (toSuiAddress P pk); [destruct (toBase64 P pk) |] |] |];
    eexists; reflexivity.
Qed.

(** X9. A key of code units below 256 that passes the length check of
    [/sui-key-to-address] is decoded and handed to
    [Ed25519Keypair.fromSecretKey], hex digits or not.  What is handed over
    is 32 bytes long exactly when the 64 characters are all hex digits;
    otherwise decoding stopped early and it is shorter. *)
Theorem sui_key_decoded_bytes :
  forall (P : Provider) (req : request) (e : Entropy P) (s : string),
    prop (query req) "privateKey" = VStr s ->
    String.length (replace s "0x" "") = 64 ->
    let secretKey := Buffer_from_hex (replace s "0x" "") in
    (exists t,
       hd_error (events (Index.sui_key_to_address req e)) =
         Some (Called (CFromSecretKey secretKey) t)) /\
    List.length secretKey <= 32 /\
    (List.length secretKey = 32 <-> all_chars is_hex (replace s "0x" "") = true).
Proof.
  intros P req e s Hq Hl secretKey. subst secretKey. fold (stripped s) in *.
  split; [| split].
  - exact (sui_key_to_address_first_call P req e s Hq Hl).
  - pose proof (Buffer_from_hex_length_le (stripped s)). lia.
  - rewrite <- Buffer_from_hex_full by (rewrite Hl; reflexivity). lia.
Qed.

Lemma sui_key_decoded_bytes_witness :
  let P := Mock.provider true true in
  let key := "0123456789abcdefg123456789abcdef0123456789abcdef0123456789abcdef" in
  List.length (Buffer_from_hex (replace key "0x" "")) <= 32 /\
  (List.length (Buffer_from_hex (replace key "0x" "")) = 32 <->
   all_chars is_hex (replace key "0x" "") = true).
Proof.
  intros P key.
  exact (proj2 (sui_key_decoded_bytes P (Mock.get [("privateKey", key)]) 0 key
                  eq_refl eq_refl)).
Defined.

(** X10. For a key of hex digits, [/sui-key-to-address] answers the key and
    the key with [0x] in front of it in the same way, calls and log
    included. *)
Theorem sui_key_with_or_without_prefix :
  forall (P : Provider) (req req' : request) (e : Entropy P) (h : string),
    h <> "" ->
    all_chars is_hex h = true ->
    prop (query req) "privateKey" = VStr h ->
    prop (query req') "privateKey" = VStr ("0x" ++ h) ->
    Index.sui_key_to_address req' e = Index.sui_key_to_address req e.
Proof.
  intros P req req' e h Hh Hhex Hq Hq'.
  rewrite (sui_key_to_address_string req' e _ Hq') by discriminate.
  rewrite (sui_key_to_address_string req e h Hq Hh).
  rewrite stripped_leading_0x, (stripped_without_0x h (hex_has_no_0x h Hhex)).
  reflexivity.
Qed.

Lemma sui_key_with_or_without_prefix_witness :
  let P := Mock.provider true true in
  let bare := "0123456789abcdef0123456789abcdef0123456789abcdef0123456789abcdef" in
  Index.sui_key_to_address (P := P) (Mock.get [("privateKey", ("0x" ++ bare)%string)]) 0 =
  Index.sui_key_to_address (P := P) (Mock.get [("privateKey", bare)]) 0.
Proof.
  intros P bare.
  exact (sui_key_with_or_without_prefix P
           (Mock.get [("privateKey", bare)])
           (Mock.get [("privateKey", ("0x" ++ bare)%string)]) 0 bare
           ltac:(discriminate) eq_refl eq_refl eq_refl).
Defined.

(** X11. Where [getSecretKey] returns the key as bytes, the [privateKey]
    of a success of [/generate-sui] can be given to [/sui-key-to-address]:
    it passes the length check, and what is handed to
    [Ed25519Keypair.fromSecretKey] is the first 32 bytes of the generated
    secret key. *)
Theorem generated_sui_key_converts_back :
  forall (P : Provider) (req : request) (e e1 : Entropy P) (resp : response)
         (keypair : Ed25519Keypair P) (b : list byte),
    outcome (Index.generate_sui req e) = Ok resp ->
    status resp = 200 ->
    new_Ed25519Keypair P e = (Ok keypair, e1) ->
    getSecretKey P keypair = Ok (Bytes b) ->
    32 <= List.length b ->
    exists hex,
      field (data_of resp) "privateKey" = VStr hex /\
      forall (req' : request) (e' : Entropy P),
        prop (query req') "privateKey" = VStr hex ->
        exists t,
          hd_error (events (Index.sui_key_to_address req' e')) =
            Some (Called (CFromSecretKey (firstn 32 b)) t).
Proof.
  intros P req e e1 resp keypair b Ho Hst Hk Hs Hl.
  destruct (generate_sui_privateKey_of_bytes P req e e1 resp keypair b Ho Hst Hk Hs Hl)
    as (hex & Hf & _ & Hlen & Hlow & Hdec).
  exists hex. split; [exact Hf |].
  intros req' e' Hq.
  assert (Hhex : all_chars is_hex hex = true)
    by (exact (all_chars_weaken _ _ hex lower_hex_is_hex Hlow)).
  assert (Hstrip : stripped hex = hex)
    by (exact (stripped_without_0x hex (hex_has_no_0x hex Hhex))).
  destruct (sui_key_to_address_first_call P req' e' hex Hq) as (t & Ht).
  - rewrite Hstrip. exact Hlen.
  - exists t. rewrite Ht, Hstrip, Hdec. reflexivity.
Qed.

Lemma generated_sui_key_converts_back_witness :
  let P := Mock.provider true false in
  exists resp hex,
    outcome (Index.generate_sui (P := P) (Mock.get []) 9) = Ok resp /\
    field (data_of resp) "privateKey" = VStr hex /\
    forall (req' : request) (e' : Entropy P),
      prop (query req') "privateKey" = VStr hex ->
      exists t,
        hd_error (events (Index.sui_key_to_address req' e')) =
          Some (Called (CFromSecretKey (firstn 32 (repeat (byte_of_N 9) 32))) t).
Proof.
  intros P.
  destruct (generated_sui_key_converts_back P (Mock.get []) 9 10 _ _ _
              eq_refl eq_refl eq_refl eq_refl ltac:(cbn; lia)) as (hex & Hf & Hc).
  eexists _, hex. split; [reflexivity |]. split; [exact Hf | exact Hc].
Defined.

(* ------------------------------------------------------------------ *)
(** ** The answers of [main.js] *)
(* ------------------------------------------------------------------ *)

(** X13. The [/sign] of [main.js] answers every request, and never in the
    envelope of [index.js]: no answer has a [success] flag or a [data]
    object; a success has [address] and [signature] at the top of the
    body; and no run writes a log line. *)
Theorem main_sign_answers_without_envelope :
  forall (P : Provider) (req : request) (e : Entropy P),
    exists resp,
      outcome (Main.sign req e) = Ok resp /\
      success_of resp = VUndefined /\
      data_of resp = VUndefined /\
      log_lines (events (Main.sign req e)) = 0 /\
      (status resp = 200 ->
         exists address signature,
           body resp = VObj [("address", VStr address); ("signature", VStr signature)]) /\
      (status resp <> 200 -> exists msg, error_of resp = VStr msg).
Proof.
  intros P req e.
  destruct (truthy (prop (query req) "key")) eqn:Hk;
    [destruct (truthy (prop (query req) "message")) eqn:Hm |].
  - rewrite (main_sign_accepts req e Hk Hm). cbv zeta.
    destruct (new_Wallet P _) as [wallet|x];
      [destruct (signMessage P wallet _) as [sig|x] |];
      eexists; cbn;
      (split; [reflexivity |]); (split; [reflexivity |]);
      (split; [reflexivity |]); (split; [reflexivity |]);
      (split; [intros H; try discriminate H; eexists _, _; reflexivity |]);
      intros H; first [now elim H | eexists; reflexivity].
  - rewrite main_sign_rejects by (rewrite Hk, Hm; reflexivity).
    eexists; cbn. repeat split; try discriminate. eexists; reflexivity.
  - rewrite main_sign_rejects by (rewrite Hk; reflexivity).
    eexists; cbn. repeat split; try discriminate. eexists; reflexivity.
Qed.

Lemma main_sign_agrees_with_index_sign_witness :
  let P := Mock.provider true true in
  let req := Mock.get [("key", a_key); ("message", "hello")] in
  exists rm ri address signature,
    outcome (Main.sign (P := P) req 0) = Ok rm /\
    outcome (Index.sign (P := P) req 0) = Ok ri /\
    status rm = status ri /\
    field (body rm) "address" = VStr address /\
    field (data_of ri) "address" = VStr address /\
    field (body rm) "signature" = VStr signature /\
    field (data_of ri) "signature" = VStr signature.
Proof.
  intros P req.
  destruct (main_sign_agrees_with_index_sign P req 0)
    as (rm & ri & Hm & Hi & Hst & _ & Hok).
  assert (H200 : status ri = 200).
  { cbv in Hi. injection Hi as <-. reflexivity. }
  destruct (Hok H200) as (address & signature & Ha & Ha' & Hs & Hs').
  exists rm, ri, address, signature.
  repeat (split; [assumption |]). assumption.
Defined.

Lemma main_sign_answers_without_envelope_witness :
  let P := Mock.provider true true in
  let req := Mock.get [("key", a_key); ("message", "hello")] in
  exists resp,
    outcome (Main.sign (P := P) req 0) = Ok resp /\
    success_of resp = VUndefined /\
    data_of resp = VUndefined /\
    log_lines (events (Main.sign (P := P) req 0)) = 0.
Proof.
  intros P req.
  destruct (main_sign_answers_without_envelope P req 0)
    as (resp & Ho & Hs & Hd & Hl & _).
  exists resp. repeat (split; [assumption |]). assumption.
Defined.

(* ------------------------------------------------------------------ *)
(** ** The guard of the key routes *)
(* ------------------------------------------------------------------ *)

Lemma stripped_leading_prefix (s : string) :
  startsWith s "0x" = true -> stripped s = drop 2 s.
Proof.
  unfold stripped, startsWith. destruct s as [|c s]; [discriminate |].
  intros H. rewrite replace_cons, H. reflexivity.
Qed.

(** C5. Before any library call, [/eth-key-to-wallet] checks the length of
    the key and nothing else: a call is made exactly when the key is a
    string that is 66 characters long once prefixed.
    [/sui-key-to-address] calls a library for a string only, and for a key
    that holds [0x] at its start or nowhere, exactly when the key without
    that prefix is 64 characters long.  [/sign] checks only that the key
    and the message are there. *)
Theorem key_length_is_the_only_guard :
  forall (P : Provider) (req : request) (e : Entropy P),
    (calls (events (Index.eth_key_to_wallet req e)) <> [] <->
       exists s, prop (query req) "privateKey" = VStr s /\
         String.length (if startsWith s "0x" then s else ("0x" ++ s)%string) = 66) /\
    ((calls (events (Index.sui_key_to_address req e)) <> [] ->
        exists s, prop (query req) "privateKey" = VStr s) /\
     (forall s,
        prop (query req) "privateKey" = VStr s ->
        startsWith s "0x" = true \/ includes s "0x" = false ->
        (calls (events (Index.sui_key_to_address req e)) <> [] <->
         String.length (if startsWith s "0x" then drop 2 s else s) = 64))) /\
    (calls (events (Index.sign req e)) <> [] <->
       truthy (prop (query req) "key") = true /\
       truthy (prop (query req) "message") = true).
Proof.
  intros P req e.
  destruct (calls_of_the_key_routes P req e) as (Heth & Hsui & Hsign).
  split; [exact Heth |]. split; [| exact Hsign].
  split.
  - intros H. apply Hsui in H. destruct H as (s & Hq & _). now exists s.
  - intros s Hq Hwhere. rewrite Hsui.
    assert (Hstrip : replace s "0x" "" = if startsWith s "0x" then drop 2 s else s).
    { destruct (startsWith s "0x") eqn:Hp.
      - now apply stripped_leading_prefix.
      - destruct Hwhere as [H | H]; [discriminate H |].
        now apply stripped_without_0x. }
    split.
    + intros (s' & Hq' & Hl). rewrite Hq in Hq'. injection Hq' as <-.
      now rewrite <- Hstrip.
    + intros Hl. exists s. split; [exact Hq |]. now rewrite Hstrip.
Qed.

Lemma key_length_is_the_only_guard_witness :
  let P := Mock.provider true true in
  calls (events (Index.eth_key_to_wallet (P := P)
                   (Mock.get [("privateKey", not_hex_64)]) 0)) <> [] /\
  calls (events (Index.sui_key_to_address (P := P)
                   (Mock.get [("privateKey", not_hex_64)]) 0)) <> [] /\
  calls (events (Index.sign (P := P)
                   (Mock.get [("key", "zz"); ("message", "hello")]) 0)) <> [].
Proof.
  intros P. split; [| split].
  - apply (proj1 (key_length_is_the_only_guard P _ 0)).
    exists not_hex_64. split; reflexivity.
  - apply (proj2 (proj1 (proj2 (key_length_is_the_only_guard P _ 0))) not_hex_64).
    + reflexivity.
    + right. reflexivity.
    + reflexivity.
  - apply (proj2 (proj2 (key_length_is_the_only_guard P _ 0))).
    split; reflexivity.
Defined.
